(** * The detection-and-decision pipeline of the intrusion detection system

    A shallow embedding of
      - [src/models/anomaly_detection.py]  (class [AnomalyDetector]),
      - [src/models/deep_learning.py]      (class [DeepAttackClassifier]),
      - [src/agents/multi_agent_system.py] (the five agents and [MultiAgentSystem]),
    followed by the properties of these functions.

    Numbers.  Python floats are modelled by exact rationals ([Q]): there is
    no rounding, no overflow, no NaN and no infinity.  A float division is a
    rational division.  The two agree, up to rounding, when the divisor is
    not zero; the statements about the detectors prove that their divisors
    are positive, and the others say where they do not.  Computed numbers
    are compared with [==] ([Qeq]).

    Where the rationals and the floats part.  A binary64 quotient overflows
    to [inf] above about 1.8e308, and a sum absorbs a term that is too small
    ([s + 1e-8] is [s] from [s = 2^27] on).  The statements that depend on
    it say so: they bound the magnitude of their inputs ([np.in_range]) and
    claim [<=] where the exact value is strictly below.  Module [Float64]
    holds the two detectors over binary64 numbers, for the inputs on which
    the floats decide. *)

From Stdlib Require Import QArith Qabs Qminmax Lqa Lia List String Sorted.
From Stdlib Require PrimFloat.
From stdpp Require Import base option gmap strings list.
Import ListNotations.

Local Open Scope Q_scope.
Local Open Scope string_scope.

(** ** Python outcomes *)

(** A call either returns a value or raises.  Only the exceptions that the
    modelled code can meet are listed. *)
Inductive exn : Type :=
  | ValueError (msg : string).

Inductive outcome (A : Type) : Type :=
  | Returns (a : A)
  | Raises (e : exn).

Arguments Returns {A} a.
Arguments Raises {A} e.

Definition obind {A B : Type} (m : outcome A) (k : A -> outcome B) : outcome B :=
  match m with
  | Returns a => k a
  | Raises e => Raises e
  end.

Notation "'let!' x ':=' m 'in' k" := (obind m (fun x => k))
  (at level 10, x name, m at level 100, k at level 200).

(** [try: ... except Exception: return d] *)
Definition try_except {A : Type} (m : outcome A) (d : A) : A :=
  match m with
  | Returns a => a
  | Raises _ => d
  end.

Fixpoint sequence {A : Type} (l : list (outcome A)) : outcome (list A) :=
  match l with
  | [] => Returns []
  | m :: ms => let! a := m in let! r := sequence ms in Returns (a :: r)
  end.

(** ** The numpy operations the detectors use

    A one-dimensional array is a [list Q]; a batch [(samples, features)] is
    the list of its rows.  *)
Module np.

(** [1e-8], the constant added to every spread and every maximum. *)
Definition eps : Q := 1 # 100000000.

Definition zero_size : exn :=
  ValueError "zero-size array to reduction operation maximum which has no identity".
Definition shape_mismatch : exn :=
  ValueError "operands could not be broadcast together".

(** [np.max(a)]: raises on an array without elements. *)
Definition max (a : list Q) : outcome Q :=
  match a with
  | [] => Raises zero_size
  | x :: xs => Returns (fold_left Qmax xs x)
  end.


(** [np.clip(x, lo, hi)] on one element. *)
Definition clip (x lo hi : Q) : Q := Qmin (Qmax x lo) hi.

(** [a op b] on two one-dimensional operands: equal lengths combine
    pointwise, an operand of length one is stretched, anything else is a
    shape error. *)
Definition broadcast (op : Q -> Q -> Q) (a b : list Q) : outcome (list Q) :=
  if Nat.eqb (length a) (length b) then Returns (zip_with op a b)
  else match a, b with
       | [x], _ => Returns (map (op x) b)
       | _, [y] => Returns (map (fun x => op x y) a)
       | _, _ => Raises shape_mismatch
       end.

(** [X op v] for a batch [X] and a per-feature vector [v]: the vector is
    combined with every row.  (For a batch without rows numpy may still
    report a shape error; the detectors turn that into the same empty
    array that this model returns.) *)
Definition rows (op : Q -> Q -> Q) (X : list (list Q)) (v : list Q)
  : outcome (list (list Q)) :=
  sequence (map (fun row => broadcast op row v) X).

(** [np.abs] on a batch. *)
Definition abs (X : list (list Q)) : list (list Q) := map (map Qabs) X.

(** [np.max(X, axis=1)]. *)
Definition max_axis1 (X : list (list Q)) : outcome (list Q) :=
  sequence (map max X).

(** [a += b] for one-dimensional [a]: [b] must have the length of [a] or
    length one. *)
Definition iadd (a b : list Q) : outcome (list Q) :=
  if Nat.eqb (length a) (length b) then Returns (zip_with Qplus a b)
  else match b with
       | [y] => Returns (map (fun x => x + y) a)
       | _ => Raises shape_mismatch
       end.

(** The columns of a batch, for the reductions along [axis=0]. *)
Definition columns (X : list (list Q)) : list (list Q) :=
  match X with
  | [] => []
  | row :: _ => map (fun j => map (fun r => nth j r 0) X) (seq 0 (length row))
  end.

(** [np.mean] on a one-dimensional array with elements. *)
Definition mean (a : list Q) : Q :=
  fold_right Qplus 0 a / inject_Z (Z.of_nat (length a)).

Fixpoint insert_sorted (x : Q) (l : list Q) : list Q :=
  match l with
  | [] => [x]
  | y :: l' => if Qle_bool x y then x :: l else y :: insert_sorted x l'
  end.

(** [np.sort] *)
Definition sort (a : list Q) : list Q := fold_right insert_sorted [] a.

(** [np.median] on a one-dimensional array with elements: the middle of
    the sorted array, or the mean of the two middle elements. *)
Definition median (a : list Q) : Q :=
  let sorted := sort a in
  let n := length a in
  if Nat.even n
  then (nth (n / 2 - 1) sorted 0 + nth (n / 2) sorted 0) / 2
  else nth (n / 2) sorted 0.

(** [np.zeros(n)]. *)
Definition zeros (n : nat) : list Q := repeat 0 n.

(** [np.mean(X, axis=1)] on a batch whose rows have elements. *)
Definition mean_axis1 (X : list (list Q)) : list Q := map mean X.

(** Entry [k] of the full convolution of [a] and [v]: the sum over the
    positions [t] of [v] of [v[t] * a[k - t]], where [a] is zero outside
    its range. *)
Definition convolve_at (a v : list Q) (k : nat) : Q :=
  fold_right Qplus 0
    (map (fun t => nth t v 0 * (if (t <=? k)%nat then nth (k - t) a 0 else 0))
         (seq 0 (length v))).

Definition empty_operand (which : string) : exn :=
  ValueError (which ++ " cannot be empty").

(** [np.convolve(a, v, mode='same')]: an empty operand raises; the longer
    operand takes the place of [a]; the result has the length of the longer
    operand and is the middle of the full convolution, which starts
    [(len(v) - 1) // 2] entries in. *)
Definition convolve_same (a v : list Q) : outcome (list Q) :=
  match a, v with
  | [], [] => Raises (empty_operand "a")
  | [], _ :: _ | _ :: _, [] => Raises (empty_operand "v")
  | _ :: _, _ :: _ =>
      let long := if (length a <? length v)%nat then v else a in
      let short := if (length a <? length v)%nat then a else v in
      let skip := ((length short - 1) / 2)%nat in
      Returns (map (fun i => convolve_at long short (i + skip)) (seq 0 (length long)))
  end.

(** [np.ones(n) / c] *)
Definition ones_over (n : nat) (c : Q) : list Q := map (fun x => x / c) (repeat 1 n).





End np.

(** ** [models/anomaly_detection.py] *)
Module AnomalyDetection.

(** The severity strings ['NORMAL'], ['WARNING'], ['CRITICAL']. *)
Inductive Severity : Type := NORMAL | WARNING | CRITICAL.

Definition severity_name (s : Severity) : string :=
  match s with
  | NORMAL => "NORMAL"
  | WARNING => "WARNING"
  | CRITICAL => "CRITICAL"
  end.

(** The order NORMAL < WARNING < CRITICAL. *)
Definition severity_rank (s : Severity) : nat :=
  match s with
  | NORMAL => 0
  | WARNING => 1
  | CRITICAL => 2
  end.

Definition severity_le (a b : Severity) : Prop :=
  (severity_rank a <= severity_rank b)%nat.

(** The label [f'<text> (score: {anomaly_score:.3f})']: the fixed text and
    the number that is printed into it. *)
Record Label : Type := mkLabel { label_text : string; label_score : Q }.

(** The entries of [baseline_stats] that the detectors read.  The source
    stores either the empty dict or all keys at once. *)
Record Baseline : Type := mkBaseline {
  mean : list Q;
  std : list Q;
  median : list Q;
  mad : list Q
}.

(** The injected outlier model (scikit-learn's [IsolationForest]), after
    [fit]: a black box that answers or raises. *)
Record IsolationForest : Type := mkForest {
  predict : list (list Q) -> outcome (list Z);
  score_samples : list (list Q) -> outcome (list Q)
}.

Record AnomalyDetector : Type := mkDetector {
  contamination_ratio : Q;
  isolation_forest : option IsolationForest;
  baseline_stats : option Baseline;
  trained : bool
}.

(** [AnomalyDetector.__init__] *)
Definition __init__ (contamination_ratio : Q) : AnomalyDetector :=
  {| contamination_ratio := contamination_ratio;
     isolation_forest := None;
     baseline_stats := None;
     trained := false |}.

Section Fit.

(** [np.std] on a one-dimensional array; it needs a square root and is kept
    as a parameter. *)
Variable np_std : list Q -> Q.

(** [_median_absolute_deviation] *)
Definition _median_absolute_deviation (X : list (list Q)) : outcome (list Q) :=
  let median := map np.median (np.columns X) in
  let! centred := np.rows Qminus X median in
  let abs_dev := np.abs centred in
  Returns (map np.median (np.columns abs_dev)).

(** [fit_statistical_baseline].  On a batch without samples [np.min]
    raises, and the [except] branch leaves the detector as it was. *)
Definition fit_statistical_baseline (self : AnomalyDetector) (X : list (list Q))
  : AnomalyDetector :=
  match X with
  | [] => self
  | _ :: _ =>
      match _median_absolute_deviation X with
      | Raises _ => self
      | Returns deviations =>
          {| contamination_ratio := contamination_ratio self;
             isolation_forest := isolation_forest self;
             baseline_stats :=
               Some {| mean := map np.mean (np.columns X);
                       std := map np_std (np.columns X);
                       median := map np.median (np.columns X);
                       mad := deviations |};
             trained := trained self |}
      end
  end.

End Fit.

(** [detect_isolation_forest]: [(predictions, anomaly_scores)]. *)
Definition detect_isolation_forest (self : AnomalyDetector) (X : list (list Q))
  : list Z * list Q :=
  match isolation_forest self with
  | None => ([], [])
  | Some forest =>
      try_except
        (let! predictions := predict forest X in
         let! raw := score_samples forest X in
         Returns (predictions, map Qopp raw))
        ([], [])
  end.

(** [detect_statistical] *)
Definition detect_statistical (self : AnomalyDetector) (X : list (list Q)) : list Q :=
  match baseline_stats self with
  | None => []
  | Some stats =>
      try_except
        (let! centred := np.rows Qminus X (mean stats) in
         let! ratios := np.rows Qdiv centred (map (fun s => s + np.eps) (std stats)) in
         np.max_axis1 (np.abs ratios))
        []
  end.

(** [detect_mad] *)
Definition detect_mad (self : AnomalyDetector) (X : list (list Q)) : list Q :=
  match baseline_stats self with
  | None => []
  | Some stats =>
      try_except
        (let! centred := np.rows Qminus X (median stats) in
         let! mad_scores := np.rows Qdiv (np.abs centred)
                               (map (fun s => s + np.eps) (mad stats)) in
         np.max_axis1 mad_scores)
        []
  end.

(** The default [weights] of [ensemble_detection]. *)
Definition default_weights : gmap string Q :=
  <["isolation_forest" := 0.4]> (<["statistical" := 0.3]> (<["mad" := 0.3]> ∅)).

(** [np.clip(scores / np.max(scores + 1e-8), 0, 1)] *)
Definition normalize (scores : list Q) : outcome (list Q) :=
  let! top := np.max (map (fun s => s + np.eps) scores) in
  Returns (map (fun s => np.clip (s / top) 0 1) scores).

(** The loop over [method_scores.items()]. *)
Fixpoint combine (weights : gmap string Q) (methods : list (string * list Q))
    (ensemble_scores : list Q) (total_weight : Q) : outcome (list Q * Q) :=
  match methods with
  | [] => Returns (ensemble_scores, total_weight)
  | (method, scores) :: rest =>
      let weight := default 0 (weights !! method) in
      let! acc := np.iadd ensemble_scores (map (Qmult weight) scores) in
      combine weights rest acc (total_weight + weight)
  end.

(** [ensemble_detection]: [(ensemble_scores, method_scores)];
    [method_scores] is kept in insertion order. *)
Definition ensemble_detection (self : AnomalyDetector) (X : list (list Q))
    (weights : option (gmap string Q))
  : outcome (list Q * list (string * list Q)) :=
  let weights := default default_weights weights in
  let! method_scores :=
    match isolation_forest self with
    | Some _ =>
        let if_scores := snd (detect_isolation_forest self X) in
        let! n := normalize if_scores in Returns [("isolation_forest", n)]
    | None => Returns []
    end in
  let stat_scores := detect_statistical self X in
  let! method_scores :=
    (if (0 <? length stat_scores)%nat
     then let! n := normalize stat_scores in Returns (method_scores ++ [("statistical", n)])%list
     else Returns method_scores) in
  let mad_scores := detect_mad self X in
  let! method_scores :=
    (if (0 <? length mad_scores)%nat
     then let! n := normalize mad_scores in Returns (method_scores ++ [("mad", n)])%list
     else Returns method_scores) in
  let! acc := combine weights method_scores (np.zeros (length X)) 0 in
  let '(ensemble_scores, total_weight) := acc in
  Returns (if Qlt_le_dec 0 total_weight
           then map (fun s => s / total_weight) ensemble_scores
           else ensemble_scores,
           method_scores).



(** A baseline over [d] features, as [fit_statistical_baseline] leaves it:
    one entry per feature, and spreads ([np.std], a median of absolute
    values) that are not negative. *)
Definition fitted (d : nat) (stats : Baseline) : Prop :=
  (0 < d)%nat /\
  length (mean stats) = d /\ length (std stats) = d /\
  length (median stats) = d /\ length (mad stats) = d /\
  Forall (fun s => 0 <= s) (std stats) /\ Forall (fun s => 0 <= s) (mad stats).

(** A batch whose samples have [d] features. *)
Definition batch_of_width (d : nat) (X : list (list Q)) : Prop :=
  Forall (fun row => length row = d) X.

(** The outlier model answers with one score per sample. *)
Definition per_sample (forest : IsolationForest) : Prop :=
  forall X scores, score_samples forest X = Returns scores -> length scores = length X.





(** The outlier model as scikit-learn behaves: a batch without samples is
    refused; otherwise every sample gets the raw score -0.5 and the
    prediction 1. *)
Definition sample_forest : IsolationForest :=
  {| predict := fun X =>
       match X with
       | [] => Raises (ValueError "Found array with 0 sample(s)")
       | _ :: _ => Returns (map (fun _ => 1%Z) X)
       end;
     score_samples := fun X =>
       match X with
       | [] => Raises (ValueError "Found array with 0 sample(s)")
       | _ :: _ => Returns (map (fun _ => - 0.5) X)
       end |}.

(** A single feature whose training samples were all 5: mean and median 5,
    both spreads 0. *)
Definition constant_baseline : Baseline :=
  {| mean := [5]; std := [0]; median := [5]; mad := [0] |}.

Definition constant_detector : AnomalyDetector :=
  {| contamination_ratio := 0.1;
     isolation_forest := None;
     baseline_stats := Some constant_baseline;
     trained := false |}.

(** A detector with a baseline over three features and no outlier model. *)
Definition three_feature_detector : AnomalyDetector :=
  {| contamination_ratio := 0.1;
     isolation_forest := None;
     baseline_stats :=
       Some {| mean := [1; 2; 3]; std := [1; 1; 1];
               median := [1; 2; 3]; mad := [1; 1; 1] |};
     trained := false |}.

(** A detector with a trained outlier model and no baseline. *)
Definition forest_detector : AnomalyDetector :=
  {| contamination_ratio := 0.1;
     isolation_forest := Some sample_forest;
     baseline_stats := None;
     trained := true |}.

(** [classify_anomaly] *)
Definition classify_anomaly (anomaly_score critical_threshold warning_threshold : Q)
  : Severity * Label :=
  if Qle_bool critical_threshold anomaly_score
  then (CRITICAL, mkLabel "Critical anomaly detected" anomaly_score)
  else if Qle_bool warning_threshold anomaly_score
  then (WARNING, mkLabel "Suspicious behavior detected" anomaly_score)
  else (NORMAL, mkLabel "Normal behavior" anomaly_score).

(** The defaults [critical_threshold = 0.9], [warning_threshold = 0.7]. *)
Definition default_critical_threshold : Q := 0.9.
Definition default_warning_threshold : Q := 0.7.

End AnomalyDetection.

(** ** The two statistical detectors over binary64 numbers

    The same two functions of [models/anomaly_detection.py], with Rocq's
    primitive floats in the place of the rationals: IEEE 754 binary64 with
    rounding to nearest, as numpy's [float64]. *)
Module Float64.

Import PrimFloat.

(** [1e-8], the nearest binary64 number. *)
Definition eps : float := 0x1.5798ee2308c3ap-27.

(** [np.isfinite] *)
Definition isfinite (x : float) : bool := negb (is_nan x || is_infinity x).

(** The larger of two numbers the way [np.max] reduces: a NaN stays. *)
Definition maximum (a b : float) : float :=
  if is_nan a then a else if is_nan b then b else if ltb a b then b else a.

(** [np.max(a)] *)
Definition max (a : list float) : outcome float :=
  match a with
  | [] => Raises np.zero_size
  | x :: xs => Returns (fold_left maximum xs x)
  end.

(** [a op b] on two one-dimensional operands, as [np.broadcast]. *)
Definition broadcast (op : float -> float -> float) (a b : list float)
  : outcome (list float) :=
  if Nat.eqb (length a) (length b) then Returns (zip_with op a b)
  else match a, b with
       | [x], _ => Returns (map (op x) b)
       | _, [y] => Returns (map (fun x => op x y) a)
       | _, _ => Raises np.shape_mismatch
       end.

Definition rows (op : float -> float -> float) (X : list (list float)) (v : list float)
  : outcome (list (list float)) :=
  sequence (map (fun row => broadcast op row v) X).

Definition max_axis1 (X : list (list float)) : outcome (list float) :=
  sequence (map max X).

Record Baseline : Type := mkBaseline {
  mean : list float;
  std : list float;
  median : list float;
  mad : list float
}.

(** [detect_statistical], on [self.baseline_stats]. *)
Definition detect_statistical (baseline_stats : option Baseline) (X : list (list float))
  : list float :=
  match baseline_stats with
  | None => []
  | Some stats =>
      try_except
        (let! centred := rows sub X (mean stats) in
         let! ratios := rows div centred (map (fun s => add s eps) (std stats)) in
         max_axis1 (map (map abs) ratios))
        []
  end.

(** [detect_mad], on [self.baseline_stats]. *)
Definition detect_mad (baseline_stats : option Baseline) (X : list (list float))
  : list float :=
  match baseline_stats with
  | None => []
  | Some stats =>
      try_except
        (let! centred := rows sub X (median stats) in
         let! mad_scores := rows div (map (map abs) centred)
                               (map (fun s => add s eps) (mad stats)) in
         max_axis1 mad_scores)
        []
  end.

(** The baseline of one feature whose training samples are all 5: the
    spreads are 0. *)
Definition constant_baseline : Baseline :=
  {| mean := [5%float]; std := [0%float]; median := [5%float]; mad := [0%float] |}.

(** [1e305], the nearest binary64 number. *)
Definition sample_1e305 : float := 0x1.23a516e82d9bap+1013.

(** The batch of the two samples 5 and 7. *)
Definition samples_5_7 : list (list float) := [[5%float]; [7%float]].

End Float64.

(** ** [models/deep_learning.py], class [DeepAttackClassifier] *)
Module DeepLearning.

(** [self.attack_signatures]; a dict, iterated in insertion order. *)
Definition attack_signatures : list (string * list (string * string)) :=
  [ ("Port Scan",
      [("unique_dst_ports", "high"); ("packet_rate", "high"); ("syn_count", "high")]);
    ("Brute Force",
      [("failed_login_count", "high"); ("warning_ratio", "high")]);
    ("SQL Injection",
      [("sql_injection_count", "high"); ("suspicious_command_count", "high")]);
    ("DoS Attack",
      [("packet_rate", "very_high"); ("packet_count", "very_high")]);
    ("Data Exfiltration",
      [("avg_payload_size", "high"); ("unique_dst_ips", "high")]);
    ("Malware Traffic",
      [("port_scan_count", "high"); ("privilege_escalation_count", "high")]);
    ("Privilege Escalation",
      [("privilege_escalation_count", "high"); ("access_violation_count", "high")]);
    ("Normal Traffic",
      [("critical_ratio", "low"); ("warning_ratio", "low")]) ].

(** The body of the loop of [_calculate_match_score], on the running
    [(score, matches)]. *)
Definition match_step (features : gmap string Q) (acc : Q * nat)
    (signature : string * string) : Q * nat :=
  let '(score, matches) := acc in
  let '(feature_name, threshold_level) := signature in
  match features !! feature_name with
  | None => (score, matches)
  | Some value =>
      if String.eqb threshold_level "high" then
        if Qlt_le_dec 50 value then (score + 20, S matches) else (score, matches)
      else if String.eqb threshold_level "very_high" then
        if Qlt_le_dec 80 value then (score + 30, S matches) else (score, matches)
      else if String.eqb threshold_level "low" then
        if Qlt_le_dec value 20 then (score + 20, S matches) else (score, matches)
      else (score, matches)
  end.

(** [_calculate_match_score] *)
Definition _calculate_match_score (features : gmap string Q)
    (signatures : list (string * string)) : Q :=
  let '(score, matches) := fold_left (match_step features) signatures (0, O) in
  if (0 <? matches)%nat
  then score * (1 + inject_Z (Z.of_nat matches) * 0.1)
  else score.

(** The loop of [classify]: [(best_match, best_score, details)];
    [best_match = None] is Python's [None]. *)
Definition classify_step (features : gmap string Q)
    (acc : option string * Q * list (string * Q))
    (entry : string * list (string * string)) : option string * Q * list (string * Q) :=
  let '(best_match, best_score, details) := acc in
  let '(attack_name, signatures) := entry in
  let score := _calculate_match_score features signatures in
  let details := (details ++ [(attack_name, score)])%list in
  if Qlt_le_dec best_score score
  then (Some attack_name, score, details)
  else (best_match, best_score, details).

Definition best_of (features : gmap string Q) : option string * Q * list (string * Q) :=
  fold_left (classify_step features) attack_signatures (None, 0, []).

(** [best_match] and [best_score] when the loop ends. *)
Definition best_match_of (features : gmap string Q) : option string :=
  fst (fst (best_of features)).
Definition best_score_of (features : gmap string Q) : Q :=
  snd (fst (best_of features)).

(** [min(1.0, best_score / 100)] *)
Definition confidence_of (best_score : Q) : Q := Qmin 1 (best_score / 100).

(** [classify]: [(attack_type, confidence, details)].  The [except] branch
    of the source is not reachable on numeric feature values: nothing in
    the body raises on them. *)
Definition classify (features : gmap string Q) (confidence_threshold : Q)
  : option string * Q * list (string * Q) :=
  let '(best_match, best_score, details) := best_of features in
  let confidence := confidence_of best_score in
  if Qlt_le_dec confidence confidence_threshold
  then (Some "Unknown Attack", confidence, details)
  else (best_match, confidence, details).

(** The default [confidence_threshold = 0.6]. *)
Definition default_confidence_threshold : Q := 0.6.

(** [get_attack_types] *)
Definition get_attack_types : list string := map fst attack_signatures.

(** The wording of section 4.5: the points a signature entry contributes. *)
Definition entry_points (features : gmap string Q) (signature : string * string) : Q :=
  match features !! fst signature with
  | None => 0
  | Some value =>
      if String.eqb (snd signature) "high" then (if Qlt_le_dec 50 value then 20 else 0)
      else if String.eqb (snd signature) "very_high" then (if Qlt_le_dec 80 value then 30 else 0)
      else if String.eqb (snd signature) "low" then (if Qlt_le_dec value 20 then 20 else 0)
      else 0
  end.

(** An entry is matched when its feature is present and crosses the cutoff
    of its level. *)
Definition entry_matched (features : gmap string Q) (signature : string * string) : bool :=
  match features !! fst signature with
  | None => false
  | Some value =>
      if String.eqb (snd signature) "high" then (if Qlt_le_dec 50 value then true else false)
      else if String.eqb (snd signature) "very_high" then (if Qlt_le_dec 80 value then true else false)
      else if String.eqb (snd signature) "low" then (if Qlt_le_dec value 20 then true else false)
      else false
  end.

Definition sumQ (l : list Q) : Q := fold_right Qplus 0 l.

(** The sum of the contributed points, before the bonus. *)
Definition raw_points (features : gmap string Q) (signatures : list (string * string)) : Q :=
  sumQ (map (entry_points features) signatures).

Definition matched_count (features : gmap string Q) (signatures : list (string * string)) : nat :=
  length (List.filter (entry_matched features) signatures).

(** The signature of an attack type in the table. *)
Definition signature_of (attack_name : string) : list (string * string) :=
  default [] (snd <$> List.find (fun e => String.eqb (fst e) attack_name) attack_signatures).

(** Apart from [syn_count] and [unique_dst_ports], no feature named in the
    table crosses the cutoff of its level. *)
Definition others_quiet (features : gmap string Q) : Prop :=
  forall attack_name signatures feature_name threshold_level,
    In (attack_name, signatures) attack_signatures ->
    In (feature_name, threshold_level) signatures ->
    feature_name <> "syn_count" -> feature_name <> "unique_dst_ports" ->
    entry_matched features (feature_name, threshold_level) = false.

(** The feature map of the scenario of section 8. *)
Definition port_scan_features : gmap string Q :=
  <["syn_count" := 90]> (<["unique_dst_ports" := 70]> ∅).

(** The points of a threshold level. *)
Definition level_points (threshold_level : string) : Q :=
  if String.eqb threshold_level "high" then 20
  else if String.eqb threshold_level "very_high" then 30
  else if String.eqb threshold_level "low" then 20
  else 0.

(** Feature maps on which [classify] names an attack with the default
    threshold. *)
Definition full_port_scan_features : gmap string Q :=
  <["unique_dst_ports" := 70]> (<["packet_rate" := 60]> (<["syn_count" := 90]> ∅)).

Definition flood_features : gmap string Q :=
  <["packet_rate" := 90]> (<["packet_count" := 100]> ∅).

(** The score as section 4.5 words it: the sum of the points, times
    [1 + 0.1 * matched] when something matched. *)
Definition match_score_spec (features : gmap string Q)
    (signatures : list (string * string)) : Q :=
  let n := matched_count features signatures in
  if (0 <? n)%nat
  then raw_points features signatures * (1 + 0.1 * inject_Z (Z.of_nat n))
  else raw_points features signatures.

(** *** [LSTMTimeSeriesDetector] *)
Module LSTM.

Record LSTMTimeSeriesDetector : Type := mkLSTM {
  sequence_length : Z;
  threshold : Q;
  trained : bool;
  mean : option (list Q);
  std : option (list Q)
}.

(** [LSTMTimeSeriesDetector.__init__]; [historical_sequences] is never
    read or written again and is left out. *)
Definition __init__ (sequence_length : Z) (threshold : Q) : LSTMTimeSeriesDetector :=
  {| sequence_length := sequence_length;
     threshold := threshold;
     trained := false;
     mean := None;
     std := None |}.

Definition default_sequence_length : Z := 10.
Definition default_threshold : Q := 0.7.

Section Fit.

(** [np.std] on a one-dimensional array, a parameter as in
    [AnomalyDetector]. *)
Variable np_std : list Q -> Q.


End Fit.

(** [(smoothed > self.threshold).astype(int)] *)
Definition above (threshold : Q) (smoothed : list Q) : list Z :=
  map (fun s => if Qlt_le_dec threshold s then 1%Z else 0%Z) smoothed.

(** The reconstruction error of every sample: the mean of its absolute
    z-scores. *)
Definition reconstruction_error (mean std : list Q) (X : list (list Q))
  : outcome (list Q) :=
  let! centred := np.rows Qminus X mean in
  let! ratios := np.rows Qdiv centred std in
  let z_scores := np.abs ratios in
  Returns (np.mean_axis1 z_scores).

(** The reconstruction error of one sample whose width is the width of
    [mean] and [std]. *)
Definition sample_error (mean std row : list Q) : Q :=
  np.mean (map Qabs (zip_with Qdiv (zip_with Qminus row mean) std)).

(** A detector as [fit] leaves it, for batches of [d] features. *)
Definition fitted (d : nat) (self : LSTMTimeSeriesDetector) (mean std : list Q) : Prop :=
  trained self = true /\ LSTM.mean self = Some mean /\ LSTM.std self = Some std
  /\ length mean = d /\ length std = d.

(** A detector in the state after [fit], with one feature. *)
Definition unit_detector : LSTMTimeSeriesDetector :=
  {| sequence_length := default_sequence_length;
     threshold := default_threshold;
     trained := true;
     mean := Some [0];
     std := Some [1] |}.

(** [predict]: [(smoothed, predictions)].  A detector that is trained has
    its [mean] and [std] set; arithmetic on a missing one would raise and
    end in the same [except] branch. *)
Definition predict (self : LSTMTimeSeriesDetector) (X : list (list Q))
  : list Q * list Z :=
  if negb (trained self) then ([], [])
  else
    match mean self, std self with
    | Some mean, Some std =>
        try_except
          (let! reconstruction_error := reconstruction_error mean std X in
           let! smoothed := np.convolve_same reconstruction_error (np.ones_over 3 3) in
           let predictions := above (threshold self) smoothed in
           Returns (smoothed, predictions))
          ([], [])
    | _, _ => ([], [])
    end.

End LSTM.

(** *** [ExplainabilityEngine] *)
Module Explainability.

(** A value of the feature dict: a number, or a value that is neither an
    [int] nor a [float]. *)
Inductive FeatureValue : Type :=
  | Number (value : Q)
  | Other.

(** [needle in haystack] on strings. *)
Fixpoint contains (needle haystack : string) : bool :=
  String.prefix needle haystack
  || match haystack with
     | EmptyString => false
     | String _ rest => contains needle rest
     end.

(** The place of an entry in a list that is sorted by falling value: behind
    the entries with a larger value, in front of the others. *)
Fixpoint insert_descending (x : string * Q) (l : list (string * Q)) : list (string * Q) :=
  match l with
  | [] => [x]
  | y :: rest =>
      if Qlt_le_dec (snd x) (snd y) then y :: insert_descending x rest else x :: l
  end.

(** [sorted(items, key=lambda x: x[1], reverse=True)]: by falling value,
    entries of equal value in their original order. *)
Definition sorted_descending (items : list (string * Q)) : list (string * Q) :=
  fold_right insert_descending [] items.

(** The loop that fills [normalized], in the order of the feature dict. *)
Definition normalized (features : list (string * FeatureValue)) : list (string * Q) :=
  flat_map (fun item =>
              match snd item with
              | Number value => [(fst item, Qmin 100 (Qmax 0 value))]
              | Other => []
              end)
           features.

(** [_get_top_indicators] *)
Definition _get_top_indicators (features : list (string * FeatureValue))
  : list (string * Q) :=
  sorted_descending (normalized features).

(** [_generate_findings] *)
Definition _generate_findings (attack_type : string) : list string :=
  if contains "Port Scan" attack_type then
    ["Multiple destination ports accessed"; "High SYN flag count detected";
     "Unusual port sequence detected"]
  else if contains "Brute Force" attack_type then
    ["Multiple failed login attempts detected";
     "Rapid authentication attempts from single source"]
  else if contains "SQL Injection" attack_type then
    ["SQL keywords detected in HTTP request";
     "Abnormal query patterns in application traffic"]
  else if contains "DoS" attack_type then
    ["High packet rate detected"; "Large volume of traffic from single source"]
  else if contains "Exfiltration" attack_type then
    ["Large outbound data transfer detected";
     "Connection to multiple external destinations"]
  else [].

(** [_get_recommendations] *)
Definition _get_recommendations (attack_type : string) (anomaly_score : Q)
  : list string :=
  ((if Qlt_le_dec 0.9 anomaly_score then
      ["IMMEDIATE ACTION REQUIRED - Block source IP"; "Isolate affected systems";
       "Collect detailed logs for forensics"]
    else if Qlt_le_dec 0.7 anomaly_score then
      ["Monitor source for additional suspicious activity";
       "Review affected system logs"; "Consider rate-limiting from source IP"]
    else [])
   ++
   (if contains "Port Scan" attack_type then
      ["Review network segmentation rules"; "Implement port-based access controls"]
    else if contains "Brute Force" attack_type then
      ["Enforce stronger authentication policies";
       "Implement account lockout mechanisms"]
    else if contains "SQL Injection" attack_type then
      ["Review application code for input validation";
       "Update database access controls"]
    else []))%list.

(** The lines of an explanation: the assessment with its level and the
    attack type, a section title, a numbered indicator (printed with two
    decimals), a bullet. *)
Inductive Line : Type :=
  | Assessment (level : string) (attack_type : string)
  | Title (text : string)
  | Indicator (rank : nat) (name : string) (value : Q)
  | Bullet (text : string).

(** What [explain_alert] returns: the lines that it joins, or the sentence
    of the [except] branch with the anomaly score. *)
Inductive AlertText : Type :=
  | Explained (lines : list Line)
  | AlertDetected (anomaly_score : Q).

(** [enumerate(items, 1)], from rank [rank] on. *)
Fixpoint enumerate {A : Type} (rank : nat) (items : list A) : list (nat * A) :=
  match items with
  | [] => []
  | item :: rest => (rank, item) :: enumerate (S rank) rest
  end.

(** [explain_alert].  [attack_type] is [None] when [classify] found no
    match; the membership tests of [_generate_findings] then raise, and the
    [except] branch answers.  [classifier_details] is not read. *)
Definition explain_alert (features : list (string * FeatureValue)) (anomaly_score : Q)
    (attack_type : option string) (classifier_details : list (string * Q))
  : AlertText :=
  match attack_type with
  | None => AlertDetected anomaly_score
  | Some attack_type =>
      let assessment :=
        if Qlt_le_dec 0.9 anomaly_score then Assessment "CRITICAL THREAT" attack_type
        else if Qlt_le_dec 0.7 anomaly_score then Assessment "WARNING" attack_type
        else Assessment "INFO" attack_type in
      let top_indicators := _get_top_indicators features in
      Explained
        ([assessment; Title "Contributing Factors:"]
         ++ map (fun entry => Indicator (fst entry) (fst (snd entry)) (snd (snd entry)))
                (enumerate 1 (firstn 5 top_indicators))
         ++ [Title "Findings:"]
         ++ map Bullet (_generate_findings attack_type)
         ++ [Title "Recommendations:"]
         ++ map Bullet (_get_recommendations attack_type anomaly_score))%list
  end.

End Explainability.

End DeepLearning.

(** ** [agents/multi_agent_system.py] *)
Module Agents.

Import AnomalyDetection.

Inductive AgentRole : Type :=
  MONITORING | DETECTION | CLASSIFICATION | EXPLANATION | RESPONSE.

(** A packet dict, reduced to the two keys the agents read; [None] is an
    absent key. *)
Record Packet : Type := mkPacket {
  protocol : option string;
  packet_size : option Q
}.

(** A log event; the agents only count events. *)
Record Event : Type := mkEvent { raw : string }.

Record DataSummary : Type := mkSummary {
  packet_count : nat;
  event_count : nat;
  protocols : gmap string nat;
  timestamps : list nat
}.

(** The two shapes of detection dict that [process_data] builds. *)
Inductive Detection : Type :=
  | ScoreDetection (anomaly_score : Q) (index : nat) (severity : Severity)
  | PacketDetection (anomaly_score : Q) (packet : Packet) (reason : string).

(** [detection.get('anomaly_score', 0.5)]: both shapes carry the key. *)
Definition anomaly_score_of (d : Detection) : Q :=
  match d with
  | ScoreDetection s _ _ => s
  | PacketDetection s _ _ => s
  end.

Record AttackType : Type := mkAttackType {
  at_type : string;
  at_confidence : Q;
  at_indicators : list string
}.

Record Classification : Type := mkClassification {
  c_detection : Detection;
  c_attack_type : string;
  c_confidence : Q;
  c_indicators : list string
}.

(** [explanation_text]: the sentence with the attack type and the
    confidence, the indicator line, and the closing sentence if any. *)
Record ExplanationText : Type := mkText {
  text_attack : string;
  text_confidence : Q;
  text_indicators : list string;
  text_closing : option string
}.

Record Explanation : Type := mkExplanation {
  e_severity : string;
  e_attack_type : string;
  e_confidence : Q;
  e_explanation : ExplanationText;
  e_recommendations : list string
}.

Record Action : Type := mkAction {
  a_timestamp : nat;
  a_severity : string;
  a_alert_type : string;
  a_confidence : Q;
  a_explanation : ExplanationText;
  a_recommended_actions : list string;
  a_automated_actions : list string
}.

Record AlertEntry : Type := mkAlertEntry {
  al_type : string;
  al_severity : string;
  al_confidence : Q;
  al_explanation : ExplanationText
}.

Record Response : Type := mkResponse {
  response_timestamp : nat;
  total_threats : nat;
  actions : list Action;
  alerts : list AlertEntry;
  r_status : string
}.

(** The [content] dicts of the four message types. *)
Inductive Content : Type :=
  | RawData (packets : list Packet) (events : list Event) (summary : DataSummary)
  | AnomaliesDetected (detections : list Detection) (detection_count : nat) (timestamp : nat)
  | ClassificationsReady (classifications : list Classification) (timestamp : nat)
  | ExplanationsGenerated (explanations : list Explanation) (timestamp : nat).

Record Message : Type := mkMessage {
  sender : string;
  recipient : string;
  message_type : string;
  content : Content;
  timestamp : nat
}.

(** [msg.content.get('detections', [])] and its siblings. *)
Definition get_detections (c : Content) : list Detection :=
  match c with AnomaliesDetected d _ _ => d | _ => [] end.
Definition get_classifications (c : Content) : list Classification :=
  match c with ClassificationsReady l _ => l | _ => [] end.
Definition get_explanations (c : Content) : list Explanation :=
  match c with ExplanationsGenerated l _ => l | _ => [] end.

(** The result dict of [process_threat]; [None] is an absent key. *)
Record PipelineResult : Type := mkResult {
  status : string;
  threat_detected : bool;
  message : option string;
  pipeline_messages : option nat;
  agents_involved : option nat;
  response : option Response
}.

(** The [status] attribute of each agent, the orchestrator's
    [message_queue], and the [anomaly_threshold] of the detection agent.
    The agents' [messages] and [knowledge_base] are left out: the pipeline
    never calls [receive_message] or [update_knowledge].
    [clock] stands for [datetime.now()]: every reading returns the current
    value and advances it.  [invocations] is not in the source: it records,
    in order, which agent's method has been entered. *)
Record MultiAgentSystem : Type := mkSystem {
  agent_status : AgentRole -> string;
  anomaly_threshold : Q;
  message_queue : list Message;
  clock : nat;
  invocations : list AgentRole
}.

Definition agent_id (r : AgentRole) : string :=
  match r with
  | MONITORING => "monitor-agent"
  | DETECTION => "detect-agent"
  | CLASSIFICATION => "classify-agent"
  | EXPLANATION => "explain-agent"
  | RESPONSE => "response-agent"
  end.

(** [self.agents] *)
Definition agents : list AgentRole :=
  [MONITORING; DETECTION; CLASSIFICATION; EXPLANATION; RESPONSE].

(** [MultiAgentSystem.__init__], started at clock reading [t0]. *)
Definition __init__ (t0 : nat) : MultiAgentSystem :=
  {| agent_status := fun _ => "idle";
     anomaly_threshold := 0.7;
     message_queue := [];
     clock := t0;
     invocations := [] |}.

(** *** State passing *)
Definition M (A : Type) : Type := MultiAgentSystem -> A * MultiAgentSystem.

Definition ret {A : Type} (a : A) : M A := fun st => (a, st).
Definition sbind {A B : Type} (m : M A) (k : A -> M B) : M B :=
  fun st => let '(a, st') := m st in k a st'.

Notation "'run!' x ':=' m 'in' k" := (sbind m (fun x => k))
  (at level 10, x name, m at level 100, k at level 200).

Definition role_eqb (a b : AgentRole) : bool :=
  match a, b with
  | MONITORING, MONITORING | DETECTION, DETECTION
  | CLASSIFICATION, CLASSIFICATION | EXPLANATION, EXPLANATION
  | RESPONSE, RESPONSE => true
  | _, _ => false
  end.

(** [datetime.now().isoformat()] *)
Definition now : M nat := fun st =>
  (clock st,
   {| agent_status := agent_status st; anomaly_threshold := anomaly_threshold st;
      message_queue := message_queue st; clock := S (clock st);
      invocations := invocations st |}).

(** [self.status = s] in the agent of role [r]. *)
Definition set_status (r : AgentRole) (s : string) : M unit := fun st =>
  (tt,
   {| agent_status := fun r' => if role_eqb r r' then s else agent_status st r';
      anomaly_threshold := anomaly_threshold st;
      message_queue := message_queue st; clock := clock st;
      invocations := invocations st |}).

Definition enter (r : AgentRole) : M unit := fun st =>
  (tt,
   {| agent_status := agent_status st; anomaly_threshold := anomaly_threshold st;
      message_queue := message_queue st; clock := clock st;
      invocations := (invocations st ++ [r])%list |}).

(** [self.message_queue.append(msg)] *)
Definition enqueue (msg : Message) : M unit := fun st =>
  (tt,
   {| agent_status := agent_status st; anomaly_threshold := anomaly_threshold st;
      message_queue := (message_queue st ++ [msg])%list; clock := clock st;
      invocations := invocations st |}).

Definition get_anomaly_threshold : M Q := fun st => (anomaly_threshold st, st).
Definition get_queue_length : M nat := fun st => (length (message_queue st), st).

(** [SecurityAgent.send_message], called by the agent of role [r]. *)
Definition send_message (r : AgentRole) (recipient message_type : string)
    (content : Content) : M Message :=
  run! t := now in
  ret {| sender := agent_id r; recipient := recipient;
         message_type := message_type; content := content; timestamp := t |}.

(** *** [MonitoringAgent.collect_data] *)
Definition count_protocol (hist : gmap string nat) (packet : Packet) : gmap string nat :=
  let p := default "Unknown" (protocol packet) in
  <[p := (default O (hist !! p) + 1)%nat]> hist.

Definition collect_data (packets : list Packet) (events : list Event) : M Message :=
  run! _ := enter MONITORING in
  run! _ := set_status MONITORING "collecting" in
  let data_summary :=
    {| packet_count := length packets;
       event_count := length events;
       protocols := fold_left count_protocol packets ∅;
       timestamps := [] |} in
  run! _ := set_status MONITORING "idle" in
  send_message MONITORING "detect-agent" "raw_data"
               (RawData packets events data_summary).

Section Detection.

(** [np.std] on a one-dimensional array; it needs a square root and is
    kept as a parameter. *)
Variable np_std : list Q -> Q.

(** The loop over [enumerate(anomaly_scores)], from index [i] on. *)
Fixpoint score_detections (threshold : Q) (i : nat) (scores : list Q) : list Detection :=
  match scores with
  | [] => []
  | score :: rest =>
      let here :=
        if Qlt_le_dec threshold score
        then [ScoreDetection score i (if Qlt_le_dec 0.9 score then CRITICAL else WARNING)]
        else [] in
      (here ++ score_detections threshold (S i) rest)%list
  end.

(** The branch without precomputed scores. *)
Definition packet_detections (packets : list Packet) : list Detection :=
  match packets with
  | [] => []
  | _ :: _ =>
      let packet_sizes := map (fun p => default 0 (packet_size p)) packets in
      let mean_size := np.mean packet_sizes in
      let std_size := np_std packet_sizes in
      flat_map
        (fun packet =>
           let size := default 0 (packet_size packet) in
           let z_score := Qabs ((size - mean_size) / (std_size + np.eps)) in
           if Qlt_le_dec 3 z_score
           then [PacketDetection (Qmin 1 (z_score / 5)) packet "Unusual packet size"]
           else [])
        packets
  end.

(** The [detections] list that [process_data] builds. *)
Definition detect (threshold : Q) (packets : list Packet)
    (anomaly_scores : option (list Q)) : list Detection :=
  match anomaly_scores with
  | Some scores => score_detections threshold O scores
  | None => packet_detections packets
  end.

(** [DetectionAgent.process_data] *)
Definition process_data (packets : list Packet) (events : list Event)
    (anomaly_scores : option (list Q)) : M Message :=
  run! _ := enter DETECTION in
  run! _ := set_status DETECTION "detecting" in
  run! threshold := get_anomaly_threshold in
  let detections := detect threshold packets anomaly_scores in
  run! _ := set_status DETECTION "idle" in
  run! t := now in
  send_message DETECTION "classify-agent" "anomalies_detected"
               (AnomaliesDetected detections (length detections) t).

(** *** [ClassificationAgent] *)

(** [_classify_single] *)
Definition _classify_single (detection : Detection)
    (features : option (gmap string Q)) : AttackType :=
  let score := anomaly_score_of detection in
  if Qlt_le_dec 0.95 score then
    {| at_type := "DoS Attack";
       at_confidence := Qmin 1 (score * 1.1);
       at_indicators := ["high_packet_rate"; "packet_flood"] |}
  else if Qlt_le_dec 0.8 score then
    {| at_type := "Port Scan";
       at_confidence := score;
       at_indicators := ["multiple_ports"; "syn_flood"] |}
  else
    {| at_type := "Anomalous Traffic";
       at_confidence := score;
       at_indicators := ["unusual_pattern"] |}.

(** [classify_attacks] *)
Definition classify_attacks (detections : list Detection)
    (features : option (gmap string Q)) : M Message :=
  run! _ := enter CLASSIFICATION in
  run! _ := set_status CLASSIFICATION "classifying" in
  let classifications :=
    map (fun detection =>
           let attack_type := _classify_single detection features in
           {| c_detection := detection;
              c_attack_type := at_type attack_type;
              c_confidence := at_confidence attack_type;
              c_indicators := at_indicators attack_type |})
        detections in
  run! _ := set_status CLASSIFICATION "idle" in
  run! t := now in
  send_message CLASSIFICATION "explain-agent" "classifications_ready"
               (ClassificationsReady classifications t).

(** *** [ExplanationAgent] *)

(** [_get_recommendations] *)
Definition _get_recommendations (attack_type : string) : list string :=
  if String.eqb attack_type "Port Scan" then
    ["Review firewall rules"; "Monitor source IP for further activity";
     "Consider implementing port knocking"]
  else if String.eqb attack_type "Brute Force" then
    ["Implement rate limiting"; "Enforce password policies";
     "Enable MFA on affected accounts"]
  else if String.eqb attack_type "SQL Injection" then
    ["Review application code for input validation";
     "Update database access controls"; "Implement parameterized queries"]
  else if String.eqb attack_type "DoS Attack" then
    ["Activate DDoS mitigation"; "Block source IP addresses";
     "Scale infrastructure capacity"]
  else if String.eqb attack_type "Data Exfiltration" then
    ["Block source IP immediately"; "Review data access logs";
     "Implement data loss prevention"]
  else
    ["Investigate further"; "Collect forensic evidence"; "Update security policies"].

(** [_generate_explanation] *)
Definition _generate_explanation (classification : Classification) : Explanation :=
  let attack_type := c_attack_type classification in
  let confidence := c_confidence classification in
  let indicators := c_indicators classification in
  let severity :=
    if Qlt_le_dec 0.9 confidence then "CRITICAL"
    else if Qlt_le_dec 0.7 confidence then "WARNING" else "INFO" in
  let closing :=
    if Qlt_le_dec 0.9 confidence
    then Some "This is a critical threat requiring immediate action."
    else if Qlt_le_dec 0.7 confidence
    then Some "Recommend immediate investigation and monitoring."
    else None in
  {| e_severity := severity;
     e_attack_type := attack_type;
     e_confidence := confidence;
     e_explanation :=
       {| text_attack := attack_type; text_confidence := confidence;
          text_indicators := indicators; text_closing := closing |};
     e_recommendations := _get_recommendations attack_type |}.

(** [generate_explanations] *)
Definition generate_explanations (classifications : list Classification) : M Message :=
  run! _ := enter EXPLANATION in
  run! _ := set_status EXPLANATION "explaining" in
  let explanations := map _generate_explanation classifications in
  run! _ := set_status EXPLANATION "idle" in
  run! t := now in
  send_message EXPLANATION "response-agent" "explanations_generated"
               (ExplanationsGenerated explanations t).

(** *** [ResponseAgent] *)

(** [_get_automated_actions] *)
Definition _get_automated_actions (severity : string) : list string :=
  if String.eqb severity "CRITICAL" then
    ["Log all activity"; "Capture network traffic"; "Alert security team";
     "Prepare isolation commands"]
  else if String.eqb severity "WARNING" then
    ["Log activity"; "Monitor source IP"; "Alert security team"]
  else
    ["Log activity"; "Monitor"].

(** The loop of [generate_response]: one action and one alert entry per
    explanation, the action stamped with the time of its construction. *)
Fixpoint respond_each (explanations : list Explanation)
  : M (list Action * list AlertEntry) :=
  match explanations with
  | [] => ret ([], [])
  | explanation :: rest =>
      let severity := e_severity explanation in
      let recommendations := e_recommendations explanation in
      run! t := now in
      let action :=
        {| a_timestamp := t;
           a_severity := severity;
           a_alert_type := e_attack_type explanation;
           a_confidence := e_confidence explanation;
           a_explanation := e_explanation explanation;
           a_recommended_actions := recommendations;
           a_automated_actions := _get_automated_actions severity |} in
      let alert_entry :=
        {| al_type := e_attack_type explanation;
           al_severity := severity;
           al_confidence := e_confidence explanation;
           al_explanation := e_explanation explanation |} in
      run! more := respond_each rest in
      ret (action :: fst more, alert_entry :: snd more)
  end.

(** [generate_response] *)
Definition generate_response (explanations : list Explanation) : M Response :=
  run! _ := enter RESPONSE in
  run! _ := set_status RESPONSE "responding" in
  run! built := respond_each explanations in
  run! _ := set_status RESPONSE "idle" in
  run! t := now in
  ret {| response_timestamp := t;
         total_threats := length explanations;
         actions := fst built;
         alerts := snd built;
         r_status := "READY_FOR_EXECUTION" |}.

(** *** [MultiAgentSystem.process_threat] *)
Definition process_threat (packets : list Packet) (events : list Event)
    (anomaly_scores : option (list Q)) (features : option (gmap string Q))
  : M PipelineResult :=
  run! msg1 := collect_data packets events in
  run! _ := enqueue msg1 in
  run! msg2 := process_data packets events anomaly_scores in
  run! _ := enqueue msg2 in
  let detections := get_detections (content msg2) in
  match detections with
  | [] =>
      ret {| status := "NORMAL";
             threat_detected := false;
             message := Some "No threats detected";
             pipeline_messages := None;
             agents_involved := None;
             response := None |}
  | _ :: _ =>
      run! msg3 := classify_attacks detections features in
      run! _ := enqueue msg3 in
      let classifications := get_classifications (content msg3) in
      run! msg4 := generate_explanations classifications in
      run! _ := enqueue msg4 in
      let explanations := get_explanations (content msg4) in
      run! response := generate_response explanations in
      run! queued := get_queue_length in
      ret {| status := "THREATS_DETECTED";
             threat_detected := true;
             message := None;
             pipeline_messages := Some queued;
             agents_involved := Some (length agents);
             response := Some response |}
  end.

(** The [role.value] strings of [AgentRole]. *)
Definition role_value (r : AgentRole) : string :=
  match r with
  | MONITORING => "monitoring"
  | DETECTION => "detection"
  | CLASSIFICATION => "classification"
  | EXPLANATION => "explanation"
  | RESPONSE => "response"
  end.

(** The dict that [get_system_status] returns; an agent entry is
    [(id, role, status)]. *)
Record SystemStatus : Type := mkStatus {
  ss_timestamp : nat;
  ss_agents : list (string * string * string);
  messages_processed : nat;
  system_status : string
}.

(** [MultiAgentSystem.get_system_status] *)
Definition get_system_status : M SystemStatus :=
  run! t := now in
  fun st =>
    ({| ss_timestamp := t;
        ss_agents := map (fun r => (agent_id r, role_value r, agent_status st r)) agents;
        messages_processed := length (message_queue st);
        system_status := "OPERATIONAL" |}, st).

(** The classification dict that [classify_attacks] builds for one
    detection, the explanation that [generate_explanations] builds from it,
    and the alert entry that [generate_response] builds from an
    explanation. *)
Definition classification_of (features : option (gmap string Q))
    (detection : Detection) : Classification :=
  let attack_type := _classify_single detection features in
  {| c_detection := detection;
     c_attack_type := at_type attack_type;
     c_confidence := at_confidence attack_type;
     c_indicators := at_indicators attack_type |}.

Definition explanation_of (features : option (gmap string Q))
    (detection : Detection) : Explanation :=
  _generate_explanation (classification_of features detection).

Definition alert_entry_of (explanation : Explanation) : AlertEntry :=
  {| al_type := e_attack_type explanation;
     al_severity := e_severity explanation;
     al_confidence := e_confidence explanation;
     al_explanation := e_explanation explanation |}.

End Detection.

(** [np.std] on arrays whose elements are all equal, where it is 0: the
    only arrays the examples below hand to it. *)
Definition constant_std : list Q -> Q := fun _ => 0.

End Agents.

(* ================================================================== *)
(** * Properties *)
(* ================================================================== *)

(** ** Sequencing and the array operations *)
Section Arrays.

Lemma sequence_map_Returns {A B : Type} (f : A -> outcome B) (g : A -> B) (l : list A) :
  Forall (fun a => f a = Returns (g a)) l ->
  sequence (map f l) = Returns (map g l).
Proof.
  induction 1 as [|a l Ha _ IH]; simpl; [reflexivity|].
  rewrite Ha, IH. reflexivity.
Qed.

Lemma broadcast_aligned (op : Q -> Q -> Q) (a b : list Q) :
  length a = length b -> np.broadcast op a b = Returns (zip_with op a b).
Proof.
  intros H. unfold np.broadcast. rewrite H, Nat.eqb_refl. reflexivity.
Qed.

Lemma rows_aligned (op : Q -> Q -> Q) (X : list (list Q)) (v : list Q) :
  Forall (fun row => length row = length v) X ->
  np.rows op X v = Returns (map (fun row => zip_with op row v) X).
Proof.
  intros H. unfold np.rows. apply sequence_map_Returns.
  eapply Forall_impl; [exact H|]. intros row Hrow. now apply broadcast_aligned.
Qed.


Lemma Qmax_cases (x y : Q) :
  (Qmax x y = x /\ y <= x) \/ (Qmax x y = y /\ x <= y).
Proof.
  unfold Qmax, GenericMinMax.gmax.
  destruct (Qcompare x y) eqn:E.
  - left. split; [reflexivity|]. apply Qeq_alt in E. lra.
  - right. split; [reflexivity|]. apply Qlt_alt in E. lra.
  - left. split; [reflexivity|]. apply Qgt_alt in E. lra.
Qed.

Lemma fold_left_Qmax_spec (xs : list Q) (x : Q) :
  In (fold_left Qmax xs x) (x :: xs) /\
  (forall y, In y (x :: xs) -> y <= fold_left Qmax xs x).
Proof.
  revert x. induction xs as [|z xs IH]; intros x; simpl.
  - split; [now left|]. intros y [<-|[]]. lra.
  - destruct (IH (Qmax x z)) as [Hin Hub]. split.
    + destruct Hin as [Heq|Hin]; [|now right; right].
      destruct (Qmax_cases x z) as [[E _]|[E _]]; rewrite E in *;
        [left|right; left]; exact Heq.
    + intros y Hy.
      assert (Hm : Qmax x z <= fold_left Qmax xs (Qmax x z))
        by (apply Hub; now left).
      destruct (Qmax_cases x z) as [[E Hle]|[E Hle]]; rewrite E in *;
        destruct Hy as [<-|[<-|Hy]]; try lra; apply Hub; now right.
Qed.






End Arrays.

(** ** The statistical and the MAD detector *)
Section Detectors.

Import AnomalyDetection.







(** C7.  A detector that has not been fitted returns an empty result:
    without a baseline [detect_statistical] and [detect_mad] return the
    empty array, without a trained model [detect_isolation_forest] returns
    a pair of empty arrays; in particular all three do so on the detector
    that [__init__] builds.  (The three functions have no raising path in
    that state: the test for the missing baseline or model comes first.) *)
Theorem unfitted_detectors_return_empty (self : AnomalyDetector) (X : list (list Q)) :
  (baseline_stats self = None ->
   detect_statistical self X = [] /\ detect_mad self X = []) /\
  (isolation_forest self = None -> detect_isolation_forest self X = ([], [])) /\
  (forall contamination : Q,
     detect_statistical (AnomalyDetection.__init__ contamination) X = [] /\
     detect_mad (AnomalyDetection.__init__ contamination) X = [] /\
     detect_isolation_forest (AnomalyDetection.__init__ contamination) X = ([], [])).
Proof.
  repeat split.
  - unfold detect_statistical. now rewrite H.
  - unfold detect_mad. now rewrite H.
  - intros H. unfold detect_isolation_forest. now rewrite H.
Qed.

Lemma unfitted_detectors_return_empty_witness :
  baseline_stats (AnomalyDetection.__init__ 0.1) = None /\
  detect_statistical (AnomalyDetection.__init__ 0.1) [[1; 2]; [3; 4]] = [] /\
  detect_mad (AnomalyDetection.__init__ 0.1) [[1; 2]; [3; 4]] = [] /\
  detect_isolation_forest (AnomalyDetection.__init__ 0.1) [[1; 2]; [3; 4]] = ([], []).
Proof.
  pose proof (unfitted_detectors_return_empty
                (AnomalyDetection.__init__ 0.1) [[1; 2]; [3; 4]]) as [Hb [Hf _]].
  split; [reflexivity|].
  destruct (Hb eq_refl) as [Hs Hm].
  split; [exact Hs|]. split; [exact Hm|exact (Hf eq_refl)].
Defined.

Section FittedBaseline.

Variable np_std : list Q -> Q.
Hypothesis np_std_nonneg : forall a, 0 <= np_std a.

Lemma insert_sorted_Forall (P : Q -> Prop) (x : Q) (l : list Q) :
  P x -> Forall P l -> Forall P (np.insert_sorted x l).
Proof.
  intros Hx. induction 1 as [|y l Hy Hl IH]; cbn [np.insert_sorted].
  - constructor; [exact Hx|constructor].
  - destruct (Qle_bool x y); repeat constructor; assumption.
Qed.

Lemma np_sort_Forall (P : Q -> Prop) (a : list Q) :
  Forall P a -> Forall P (np.sort a).
Proof.
  unfold np.sort. induction 1 as [|x a Hx _ IH]; cbn [fold_right].
  - constructor.
  - now apply insert_sorted_Forall.
Qed.

Lemma nth_nonneg (l : list Q) (i : nat) :
  Forall (fun v => 0 <= v) l -> 0 <= nth i l 0.
Proof.
  intros H. revert i. induction H as [|x l Hx _ IH]; intros [|i]; cbn [nth];
    try lra; auto.
Qed.

(** The median of numbers that are not negative is not negative. *)
Lemma np_median_nonneg (a : list Q) :
  Forall (fun v => 0 <= v) a -> 0 <= np.median a.
Proof.
  intros H. unfold np.median.
  pose proof (np_sort_Forall _ a H) as Hs.
  pose proof (nth_nonneg (np.sort a) (length a / 2 - 1) Hs).
  pose proof (nth_nonneg (np.sort a) (length a / 2) Hs).
  destruct (Nat.even (length a)); [|assumption].
  apply Qle_shift_div_l; lra.
Qed.

Lemma columns_length (X : list (list Q)) (d : nat) :
  X <> [] -> batch_of_width d X -> length (np.columns X) = d.
Proof.
  destruct X as [|row X]; [congruence|]. intros _ HX.
  apply Forall_cons in HX as [Hrow _].
  unfold np.columns. now rewrite length_map, length_seq.
Qed.

Lemma columns_nonneg (X : list (list Q)) :
  Forall (Forall (fun v => 0 <= v)) X ->
  Forall (Forall (fun v => 0 <= v)) (np.columns X).
Proof.
  intros H. destruct X as [|row X]; [constructor|].
  unfold np.columns. apply Forall_map, Forall_forall. intros j _.
  apply Forall_map. eapply Forall_impl; [exact H|].
  cbn beta. intros r Hr. now apply nth_nonneg.
Qed.

(** [fit_statistical_baseline] on a batch with samples stores a fitted
    baseline. *)
Lemma fit_statistical_baseline_fitted (self : AnomalyDetector) (X : list (list Q))
    (d : nat) :
  X <> [] -> (0 < d)%nat -> batch_of_width d X ->
  exists stats,
    baseline_stats (fit_statistical_baseline np_std self X) = Some stats
    /\ fitted d stats.
Proof.
  intros Hne Hd HX.
  pose proof (columns_length X d Hne HX) as Hcols.
  unfold fit_statistical_baseline, _median_absolute_deviation.
  destruct X as [|row0 X0] eqn:EX; [congruence|]. rewrite <- EX in *. clear Hne.
  rewrite rows_aligned
    by (eapply Forall_impl; [exact HX|]; cbn beta; intros;
        rewrite length_map; congruence).
  cbn [obind baseline_stats]. eexists. split; [reflexivity|].
  set (centred := map (fun row => zip_with Qminus row (map np.median (np.columns X))) X).
  assert (Hwidth : batch_of_width d (np.abs centred)).
  { unfold np.abs, centred, batch_of_width. rewrite map_map. apply Forall_map.
    eapply Forall_impl; [exact HX|]. cbn beta. intros row Hrow.
    rewrite length_map, length_zip_with_l_eq; rewrite ?length_map; congruence. }
  assert (Hne' : np.abs centred <> []).
  { unfold np.abs, centred. rewrite EX. discriminate. }
  unfold fitted. cbn [mean std median mad]. rewrite !length_map, Hcols.
  rewrite (columns_length _ d Hne' Hwidth).
  repeat split; try assumption.
  - apply Forall_map, Forall_forall. intros a _. apply np_std_nonneg.
  - apply Forall_map.
    assert (Hcol : Forall (Forall (fun v => 0 <= v)) (np.columns (np.abs centred))).
    { apply columns_nonneg. unfold np.abs. apply Forall_map, Forall_forall.
      intros r _. apply Forall_map, Forall_forall. intros v _. apply Qabs_nonneg. }
    eapply Forall_impl; [exact Hcol|]. cbn beta. intros a Ha.
    now apply np_median_nonneg.
Qed.

End FittedBaseline.

Example np_median_odd : np.median [3; 1; 2] = 2.
Proof. reflexivity. Qed.

Example np_median_even : np.median [4; 1; 3; 2] == 5 # 2.
Proof. reflexivity. Qed.

(** Three training samples, all equal to 5: the fitted baseline is
    [constant_baseline], up to the representation of the numbers. *)
Example fit_constant_samples :
  exists stats,
    baseline_stats (fit_statistical_baseline (fun _ => 0) (AnomalyDetection.__init__ 0.1)
                                             [[5]; [5]; [5]])
    = Some stats
    /\ Forall2 Qeq (mean stats) (mean constant_baseline)
    /\ Forall2 Qeq (std stats) (std constant_baseline)
    /\ Forall2 Qeq (median stats) (median constant_baseline)
    /\ Forall2 Qeq (mad stats) (mad constant_baseline).
Proof.
  eexists. split; [vm_compute; reflexivity|].
  cbn [mean std median mad constant_baseline]. repeat split; repeat constructor.
Qed.








(** C6, as stated, fails: on the baseline of one feature whose training
    samples are all 5 (spread 0) the sample 1e305 scores
    [|1e305 - 5| / 1e-8], which is beyond the binary64 range: both detectors
    return [inf], not a finite score. *)
Lemma statistical_score_overflows :
  Float64.detect_statistical (Some Float64.constant_baseline) [[Float64.sample_1e305]]
  = [PrimFloat.infinity]
  /\ Float64.detect_mad (Some Float64.constant_baseline) [[Float64.sample_1e305]]
     = [PrimFloat.infinity]
  /\ forallb Float64.isfinite
       (Float64.detect_statistical (Some Float64.constant_baseline)
                                   [[Float64.sample_1e305]])
     = false.
Proof. vm_compute. repeat split. Qed.

(** The same detector on samples within range: 5 scores 0 and 7 scores
    [2 / 1e-8]. *)
Example statistical_score_in_range :
  map Float64.isfinite
      (Float64.detect_statistical (Some Float64.constant_baseline) Float64.samples_5_7)
  = [true; true].
Proof. vm_compute. reflexivity. Qed.



Example detect_statistical_constant_baseline :
  Forall2 Qeq (detect_statistical constant_detector [[5]; [7]]) [0; 200000000].
Proof. vm_compute. repeat constructor. Qed.

End Detectors.

(** ** The score fuser *)
Section Ensemble.

Import AnomalyDetection.


Lemma normalize_empty : normalize [] = Raises np.zero_size.
Proof. reflexivity. Qed.



(** The divisor of the normalisation is positive on scores that are not
    negative. *)
Lemma normalize_divisor_positive (scores : list Q) (top : Q) :
  Forall (fun v => 0 <= v) scores ->
  np.max (map (fun s => s + np.eps) scores) = Returns top -> 0 < top.
Proof.
  destruct scores as [|x xs]; simpl; [discriminate|].
  intros H [= <-].
  destruct (fold_left_Qmax_spec (map (fun s => s + np.eps) xs) (x + np.eps)) as [_ Hub].
  specialize (Hub (x + np.eps) (or_introl eq_refl)).
  apply Forall_cons in H as [Hx _]. unfold np.eps in *. lra.
Qed.














(** The outlier-model path has no guard: when the model yields no scores,
    the normalisation raises. *)
Lemma ensemble_detection_raises_without_forest_scores (self : AnomalyDetector)
    (forest : IsolationForest) (X : list (list Q)) (weights : option (gmap string Q)) :
  isolation_forest self = Some forest ->
  snd (detect_isolation_forest self X) = [] ->
  ensemble_detection self X weights = Raises np.zero_size.
Proof.
  intros Hf Hnone. unfold ensemble_detection. rewrite Hf, Hnone. reflexivity.
Qed.

(** When no detector produced output, the ensemble score is all-zero. *)
Lemma ensemble_detection_no_output (self : AnomalyDetector) (X : list (list Q))
    (weights : option (gmap string Q)) :
  isolation_forest self = None ->
  detect_statistical self X = [] -> detect_mad self X = [] ->
  ensemble_detection self X weights = Returns (np.zeros (length X), []).
Proof.
  intros Hf Hs Hm. unfold ensemble_detection. rewrite Hf, Hs, Hm. reflexivity.
Qed.

(** C1 fails on the empty batch when the outlier model is trained: the
    model's scores are then empty (it answers with no score or it raises),
    and [np.max] of the empty array raises out of [ensemble_detection].
    The statistical and the MAD path test [size > 0] before they
    normalise; the outlier-model path does not. *)
Theorem ensemble_detection_raises_on_empty_batch (self : AnomalyDetector)
    (forest : IsolationForest) (weights : option (gmap string Q)) :
  isolation_forest self = Some forest -> per_sample forest ->
  ensemble_detection self [] weights = Raises np.zero_size.
Proof.
  intros Hf Hper. unfold ensemble_detection, detect_isolation_forest. rewrite Hf.
  destruct (predict forest []) as [predictions|e1]; simpl;
    [|reflexivity].
  destruct (score_samples forest []) as [raw|e2] eqn:E; simpl; [|reflexivity].
  apply Hper in E. destruct raw; [reflexivity|discriminate].
Qed.

Lemma sample_forest_per_sample : per_sample sample_forest.
Proof.
  intros [|row X] scores; simpl; [discriminate|].
  intros [= <-]. simpl. now rewrite length_map.
Qed.

Lemma ensemble_detection_raises_on_empty_batch_witness :
  isolation_forest forest_detector = Some sample_forest /\
  per_sample sample_forest /\
  ensemble_detection forest_detector [] None = Raises np.zero_size.
Proof.
  split; [reflexivity|]. split; [exact sample_forest_per_sample|].
  exact (ensemble_detection_raises_on_empty_batch forest_detector sample_forest None
           eq_refl sample_forest_per_sample).
Defined.

(** The statistical and the MAD detector on the constant baseline: both
    normalise the scores [0; 2e8] with the divisor [2e8 + 1e-8]. *)
Example ensemble_detection_constant_baseline :
  exists r methods,
    ensemble_detection constant_detector [[5]; [7]] None = Returns (r, methods) /\
    map fst methods = ["statistical"; "mad"] /\
    Forall2 Qeq r [0; 200000000 / (200000000 + np.eps)].
Proof.
  eexists. eexists. split; [vm_compute; reflexivity|].
  split; [reflexivity|]. repeat constructor.
Qed.

(** The detector with the outlier model alone, on a batch with samples. *)
Example ensemble_detection_forest_two_samples :
  exists r methods,
    ensemble_detection forest_detector [[1]; [2]] None = Returns (r, methods) /\
    Forall2 Qeq r [50000000 # 50000001; 50000000 # 50000001].
Proof.
  eexists. eexists. split; [vm_compute; reflexivity|].
  repeat constructor.
Qed.

End Ensemble.

(** ** The severity classifier *)
Section SeverityClassifier.

Import AnomalyDetection.

Lemma Qle_bool_false (x y : Q) : Qle_bool x y = false <-> y < x.
Proof.
  split; intros H.
  - apply Qnot_le_lt. intros Hle. apply Qle_bool_iff in Hle. congruence.
  - destruct (Qle_bool x y) eqn:E; [|reflexivity].
    apply Qle_bool_iff in E. lra.
Qed.

(** The three branches of [classify_anomaly], by the position of the
    score. *)
Lemma classify_anomaly_critical (s c w : Q) :
  c <= s -> fst (classify_anomaly s c w) = CRITICAL.
Proof.
  intros H. unfold classify_anomaly.
  apply Qle_bool_iff in H. rewrite H. reflexivity.
Qed.

Lemma classify_anomaly_warning (s c w : Q) :
  s < c -> w <= s -> fst (classify_anomaly s c w) = WARNING.
Proof.
  intros Hc Hw. unfold classify_anomaly.
  apply Qle_bool_false in Hc. apply Qle_bool_iff in Hw.
  rewrite Hc, Hw. reflexivity.
Qed.

Lemma classify_anomaly_normal (s c w : Q) :
  s < c -> s < w -> fst (classify_anomaly s c w) = NORMAL.
Proof.
  intros Hc Hw. unfold classify_anomaly.
  apply Qle_bool_false in Hc. apply Qle_bool_false in Hw.
  rewrite Hc, Hw. reflexivity.
Qed.

(** C4.  [classify_anomaly] is monotone in the order
    NORMAL < WARNING < CRITICAL: for scores [s1 < s2] and fixed thresholds
    (whatever their order) the severity of [s1] is at most the severity of
    [s2]; with the default thresholds 0.9 and 0.7 the scores 0.95, 0.75 and
    0.3 are CRITICAL, WARNING and NORMAL. *)
Theorem classify_anomaly_monotone (s1 s2 critical warning : Q) :
  s1 < s2 ->
  severity_le (fst (classify_anomaly s1 critical warning))
              (fst (classify_anomaly s2 critical warning))
  /\ fst (classify_anomaly 0.95 default_critical_threshold default_warning_threshold)
     = CRITICAL
  /\ fst (classify_anomaly 0.75 default_critical_threshold default_warning_threshold)
     = WARNING
  /\ fst (classify_anomaly 0.3 default_critical_threshold default_warning_threshold)
     = NORMAL.
Proof.
  intros Hlt. split; [|repeat split; reflexivity].
  unfold severity_le.
  destruct (Qlt_le_dec s2 critical) as [H2c|H2c].
  - destruct (Qlt_le_dec s2 warning) as [H2w|H2w].
    + rewrite (classify_anomaly_normal s1), (classify_anomaly_normal s2); [lia|lra..].
    + rewrite (classify_anomaly_warning s2) by lra.
      destruct (Qlt_le_dec s1 warning) as [H1w|H1w].
      * rewrite classify_anomaly_normal by lra. simpl. lia.
      * rewrite classify_anomaly_warning by lra. simpl. lia.
  - rewrite (classify_anomaly_critical s2) by lra.
    destruct (fst (classify_anomaly s1 critical warning)); simpl; lia.
Qed.

Lemma classify_anomaly_monotone_witness :
  0.3 < 0.95 /\
  severity_le (fst (classify_anomaly 0.3 0.9 0.7)) (fst (classify_anomaly 0.95 0.9 0.7)).
Proof.
  split; [reflexivity|].
  apply (classify_anomaly_monotone 0.3 0.95 0.9 0.7). reflexivity.
Defined.

(** C9, as stated, fails: the thresholds are arguments of
    [classify_anomaly], nothing checks their order, and with
    critical 0.5 < warning 0.7 the call returns a verdict: the score 0.6,
    which is below the warning threshold, is CRITICAL. *)
Lemma classify_anomaly_accepts_inverted_thresholds :
  0.5 < 0.7 /\ 0.6 < 0.7 /\
  classify_anomaly 0.6 0.5 0.7 = (CRITICAL, mkLabel "Critical anomaly detected" 0.6).
Proof. repeat split. Qed.

(** C9, amended.  Thresholds with critical < warning are accepted; the
    verdict is then CRITICAL for a score at or above the critical threshold
    and NORMAL below it, and never WARNING. *)
Theorem classify_anomaly_inverted_thresholds (s critical warning : Q) :
  critical < warning ->
  fst (classify_anomaly s critical warning)
  = (if Qle_bool critical s then CRITICAL else NORMAL)
  /\ fst (classify_anomaly s critical warning) <> WARNING.
Proof.
  intros Hinv.
  assert (E : fst (classify_anomaly s critical warning)
              = (if Qle_bool critical s then CRITICAL else NORMAL)).
  { destruct (Qle_bool critical s) eqn:Hc.
    - apply classify_anomaly_critical. now apply Qle_bool_iff.
    - apply Qle_bool_false in Hc. apply classify_anomaly_normal; lra. }
  split; [exact E|]. rewrite E. destruct (Qle_bool critical s); discriminate.
Qed.

Lemma classify_anomaly_inverted_thresholds_witness :
  0.5 < 0.7 /\
  fst (classify_anomaly 0.6 0.5 0.7) = CRITICAL /\
  fst (classify_anomaly 0.6 0.5 0.7) <> WARNING.
Proof.
  split; [reflexivity|].
  apply (classify_anomaly_inverted_thresholds 0.6 0.5 0.7). reflexivity.
Defined.

End SeverityClassifier.

(** ** The attack-type classifier *)
Section AttackClassifier.

Import DeepLearning.

Lemma match_step_spec (features : gmap string Q) (score : Q) (matches : nat)
    (signature : string * string) :
  fst (match_step features (score, matches) signature)
  == score + entry_points features signature
  /\ snd (match_step features (score, matches) signature)
     = (if entry_matched features signature then S matches else matches).
Proof.
  destruct signature as [feature_name threshold_level].
  unfold match_step, entry_points, entry_matched. cbn [fst snd].
  destruct (features !! feature_name) as [value|]; [|split; [simpl; lra|reflexivity]].
  destruct (String.eqb threshold_level "high");
    [destruct (Qlt_le_dec 50 value); split; simpl; try lra; reflexivity|].
  destruct (String.eqb threshold_level "very_high");
    [destruct (Qlt_le_dec 80 value); split; simpl; try lra; reflexivity|].
  destruct (String.eqb threshold_level "low");
    [destruct (Qlt_le_dec value 20); split; simpl; try lra; reflexivity|].
  split; [simpl; lra|reflexivity].
Qed.

Lemma match_fold_spec (features : gmap string Q) (signatures : list (string * string)) :
  forall (score : Q) (matches : nat),
    fst (fold_left (match_step features) signatures (score, matches))
    == score + raw_points features signatures
    /\ snd (fold_left (match_step features) signatures (score, matches))
       = (matches + matched_count features signatures)%nat.
Proof.
  induction signatures as [|sig signatures IH]; intros score matches.
  - unfold raw_points, matched_count. simpl. split; [lra|lia].
  - cbn [fold_left].
    destruct (match_step_spec features score matches sig) as [Hs Hm].
    destruct (match_step features (score, matches) sig) as [score1 matches1].
    cbn [fst snd] in Hs, Hm.
    destruct (IH score1 matches1) as [IHs IHm]. rewrite IHs, IHm, Hs, Hm.
    unfold raw_points, matched_count, sumQ. cbn [map fold_right List.filter].
    destruct (entry_matched features sig); cbn [length]; split; try lra; lia.
Qed.

(** The loop of [_calculate_match_score] computes the score that
    section 4.5 words. *)
Lemma calculate_match_score_spec (features : gmap string Q)
    (signatures : list (string * string)) :
  _calculate_match_score features signatures == match_score_spec features signatures.
Proof.
  unfold _calculate_match_score, match_score_spec.
  destruct (match_fold_spec features signatures 0 O) as [Hs Hm].
  destruct (fold_left _ _ _) as [score matches]. cbn [fst snd] in Hs, Hm.
  rewrite Hm. cbn [Nat.add].
  destruct (0 <? matched_count features signatures)%nat; rewrite Hs; ring.
Qed.

Lemma entry_points_nonneg (features : gmap string Q) (signature : string * string) :
  0 <= entry_points features signature.
Proof.
  unfold entry_points. destruct (features !! _); [|lra].
  repeat match goal with
         | |- context [if ?b then _ else _] => destruct b
         end; lra.
Qed.

Lemma raw_points_nonneg (features : gmap string Q) (signatures : list (string * string)) :
  0 <= raw_points features signatures.
Proof.
  unfold raw_points. induction signatures as [|sig signatures IH]; simpl; [lra|].
  pose proof (entry_points_nonneg features sig). lra.
Qed.

Lemma calculate_match_score_nonneg (features : gmap string Q)
    (signatures : list (string * string)) :
  0 <= _calculate_match_score features signatures.
Proof.
  rewrite calculate_match_score_spec. unfold match_score_spec.
  pose proof (raw_points_nonneg features signatures) as Hr.
  destruct (0 <? _)%nat; [|exact Hr].
  assert (0 <= inject_Z (Z.of_nat (matched_count features signatures))).
  { change 0 with (inject_Z 0). rewrite <- Zle_Qle. lia. }
  nra.
Qed.

Lemma entry_unmatched_points (features : gmap string Q) (signature : string * string) :
  entry_matched features signature = false -> entry_points features signature = 0.
Proof.
  unfold entry_matched, entry_points. destruct (features !! _); [|reflexivity].
  repeat match goal with
         | |- context [if ?b then _ else _] => destruct b
         end; intros; try reflexivity; discriminate.
Qed.

Lemma unmatched_signature_scores_zero (features : gmap string Q)
    (signatures : list (string * string)) :
  (forall e, In e signatures -> entry_matched features e = false) ->
  _calculate_match_score features signatures == 0.
Proof.
  intros H. rewrite calculate_match_score_spec. unfold match_score_spec.
  assert (Hc : matched_count features signatures = O /\ raw_points features signatures == 0).
  { unfold matched_count, raw_points, sumQ.
    induction signatures as [|e signatures IH]; simpl; [split; [reflexivity|lra]|].
    rewrite (H e (or_introl eq_refl)).
    rewrite (entry_unmatched_points features e (H e (or_introl eq_refl))).
    destruct IH as [IHc IHr]; [intros; apply H; now right|].
    split; [exact IHc|lra]. }
  destruct Hc as [-> Hr]. simpl. exact Hr.
Qed.

(** The loop of [classify] over a table: the best score bounds the start
    value and every score of the table; either nothing was selected, or the
    selected entry is in the table, carries the best score, and beat the
    start value. *)
Lemma classify_fold_spec (features : gmap string Q)
    (table : list (string * list (string * string))) :
  forall (bm : option string) (bs : Q) (det : list (string * Q)),
    let r := fold_left (classify_step features) table (bm, bs, det) in
    bs <= snd (fst r)
    /\ (forall n sig, In (n, sig) table ->
        _calculate_match_score features sig <= snd (fst r))
    /\ ((fst (fst r) = bm /\ snd (fst r) = bs) \/
        (exists n sig, In (n, sig) table /\ fst (fst r) = Some n /\
                       snd (fst r) = _calculate_match_score features sig /\
                       bs < snd (fst r))).
Proof.
  induction table as [|[name sig] table IH]; intros bm bs det; cbn zeta.
  - simpl. split; [lra|]. split; [intros ? ? []|]. left. split; reflexivity.
  - cbn [fold_left].
    set (score := _calculate_match_score features sig).
    set (det' := (det ++ [(name, score)])%list).
    change (classify_step features (bm, bs, det) (name, sig))
      with (if Qlt_le_dec bs score then (Some name, score, det') else (bm, bs, det')).
    destruct (Qlt_le_dec bs score) as [Hlt|Hle].
    + specialize (IH (Some name) score det'). cbn zeta in IH.
      destruct IH as (Hge & Hall & Hsel).
      split; [lra|]. split.
      * intros n sg [[= <- <-]|Hin]; [exact Hge|now apply Hall with n].
      * right. destruct Hsel as [[E1 E2]|(n & sg & Hin & E1 & E2 & Hbeat)].
        -- exists name, sig. rewrite E1, E2.
           split; [now left|]. repeat split. exact Hlt.
        -- exists n, sg. split; [now right|]. repeat split; try assumption. lra.
    + specialize (IH bm bs det'). cbn zeta in IH.
      destruct IH as (Hge & Hall & Hsel).
      split; [exact Hge|]. split.
      * intros n sg [[= <- <-]|Hin]; [fold score; lra|now apply Hall with n].
      * destruct Hsel as [Hsame|(n & sg & Hin & E1 & E2 & Hbeat)]; [now left|].
        right. exists n, sg. split; [now right|]. repeat split; assumption.
Qed.

(** The confidence that [classify] returns does not depend on the
    threshold. *)
Lemma classify_confidence (features : gmap string Q) (threshold : Q) :
  snd (fst (classify features threshold)) = confidence_of (best_score_of features).
Proof.
  unfold classify, best_score_of.
  destruct (best_of features) as [[bm bs] det]. cbn [fst snd].
  destruct (Qlt_le_dec _ _); reflexivity.
Qed.

(** An attack type whose score is strictly above every other score is the
    best match. *)
Lemma strict_maximum_is_best_match (features : gmap string Q) (name : string)
    (sig0 : list (string * string)) :
  In (name, sig0) attack_signatures ->
  (forall n sig, In (n, sig) attack_signatures -> n <> name ->
     _calculate_match_score features sig < _calculate_match_score features sig0) ->
  best_match_of features = Some name.
Proof.
  intros Hin Hstrict. unfold best_match_of, best_of.
  destruct (classify_fold_spec features attack_signatures None 0 [])
    as (_ & Hall & Hsel). cbn zeta in Hall, Hsel.
  assert (Hpos : 0 < _calculate_match_score features sig0).
  { destruct (String.eqb name "Port Scan") eqn:E.
    - apply String.eqb_eq in E. subst name.
      eapply Qle_lt_trans; [apply calculate_match_score_nonneg|].
      apply (Hstrict "Brute Force"); [right; left; reflexivity|discriminate].
    - apply String.eqb_neq in E.
      eapply Qle_lt_trans; [apply calculate_match_score_nonneg|].
      apply (Hstrict "Port Scan"); [left; reflexivity|congruence]. }
  destruct Hsel as [[_ E2]|(n & sg & Hn & E1 & E2 & _)].
  - specialize (Hall _ _ Hin). rewrite E2 in Hall. lra.
  - rewrite E1. destruct (string_dec n name) as [->|Hne]; [reflexivity|].
    specialize (Hstrict _ _ Hn Hne). specialize (Hall _ _ Hin).
    rewrite E2 in Hall. lra.
Qed.

Ltac table_cases H :=
  simpl in H;
  repeat (destruct H as [H|H]; [injection H as <- <-|]);
  try contradiction.

(** In the scenario, every attack type other than Port Scan scores 0. *)
Lemma quiet_types_score_zero (features : gmap string Q) :
  others_quiet features ->
  forall n sig, In (n, sig) attack_signatures -> n <> "Port Scan" ->
    _calculate_match_score features sig == 0.
Proof.
  intros Hquiet n sig Hin Hne.
  apply unmatched_signature_scores_zero. intros [f l] He.
  apply (Hquiet n sig f l Hin He);
    table_cases Hin; try congruence; table_cases He; discriminate.
Qed.

Lemma port_scan_points (features : gmap string Q) :
  features !! "syn_count" = Some 90 -> features !! "unique_dst_ports" = Some 70 ->
  others_quiet features ->
  raw_points features (signature_of "Port Scan") == 40
  /\ matched_count features (signature_of "Port Scan") = 2%nat.
Proof.
  intros Hsyn Hports Hquiet.
  assert (Hrate : entry_matched features ("packet_rate", "high") = false).
  { apply (Hquiet "Port Scan" (signature_of "Port Scan"));
      [left; reflexivity|right; left; reflexivity|discriminate..]. }
  pose proof (entry_unmatched_points _ _ Hrate) as Hrate0.
  assert (H1 : entry_matched features ("unique_dst_ports", "high") = true
               /\ entry_points features ("unique_dst_ports", "high") = 20).
  { unfold entry_matched, entry_points. cbn [fst snd]. rewrite Hports.
    split; reflexivity. }
  assert (H2 : entry_matched features ("syn_count", "high") = true
               /\ entry_points features ("syn_count", "high") = 20).
  { unfold entry_matched, entry_points. cbn [fst snd]. rewrite Hsyn.
    split; reflexivity. }
  destruct H1 as [M1 P1], H2 as [M2 P2].
  unfold raw_points, matched_count, sumQ.
  change (signature_of "Port Scan")
    with [("unique_dst_ports", "high"); ("packet_rate", "high"); ("syn_count", "high")].
  cbn [map fold_right List.filter]. rewrite M1, M2, Hrate, P1, P2, Hrate0.
  split; reflexivity.
Qed.

(** C2.  The match score that [_calculate_match_score] returns is the sum of
    the points of the matched signature entries (20 for a 'high' feature
    above 50, 30 for a 'very_high' feature above 80, 20 for a 'low' feature
    below 20), times [1 + 0.1 * matched] when an entry matched.  The
    confidence that [classify] returns is [min(1, best / 100)], where [best]
    is the maximum of the scores of the attack types.  With
    [syn_count = 90], [unique_dst_ports = 70] and no other signature feature
    across its cutoff, Port Scan has 40 points from 2 matches, scores
    [40 * 1.2], every other type scores 0, and Port Scan is the best match;
    in general Port Scan is the best match whenever its score exceeds every
    other score. *)
Theorem match_score_confidence_and_port_scan (features : gmap string Q) :
  (forall signatures,
     _calculate_match_score features signatures == match_score_spec features signatures)
  /\ (forall n sig, In (n, sig) attack_signatures ->
        _calculate_match_score features sig <= best_score_of features)
  /\ (exists n sig, In (n, sig) attack_signatures /\
        best_score_of features == _calculate_match_score features sig)
  /\ (forall threshold,
        snd (fst (classify features threshold)) = Qmin 1 (best_score_of features / 100))
  /\ (features !! "syn_count" = Some 90 -> features !! "unique_dst_ports" = Some 70 ->
      others_quiet features ->
      raw_points features (signature_of "Port Scan") == 40
      /\ matched_count features (signature_of "Port Scan") = 2%nat
      /\ _calculate_match_score features (signature_of "Port Scan") == 40 * (1 + 0.1 * 2)
      /\ (forall n sig, In (n, sig) attack_signatures -> n <> "Port Scan" ->
            _calculate_match_score features sig == 0)
      /\ best_match_of features = Some "Port Scan")
  /\ ((forall n sig, In (n, sig) attack_signatures -> n <> "Port Scan" ->
         _calculate_match_score features sig
         < _calculate_match_score features (signature_of "Port Scan")) ->
      best_match_of features = Some "Port Scan").
Proof.
  assert (Hps : In ("Port Scan", signature_of "Port Scan") attack_signatures)
    by (left; reflexivity).
  destruct (classify_fold_spec features attack_signatures None 0 [])
    as (_ & Hall & Hsel). cbn zeta in Hall, Hsel.
  fold (best_of features) in Hall, Hsel.
  split; [apply calculate_match_score_spec|].
  split; [exact Hall|]. split; [|split; [|split]].
  - destruct Hsel as [[_ E]|(n & sig & Hin & _ & E & _)].
    + exists "Port Scan", (signature_of "Port Scan"). split; [exact Hps|].
      pose proof (Hall _ _ Hps) as Hle. unfold best_score_of. rewrite E in *.
      pose proof (calculate_match_score_nonneg features (signature_of "Port Scan")).
      lra.
    + exists n, sig. split; [exact Hin|]. unfold best_score_of. rewrite E. reflexivity.
  - intros threshold. apply classify_confidence.
  - intros Hsyn Hports Hquiet.
    destruct (port_scan_points features Hsyn Hports Hquiet) as [Hraw Hcount].
    assert (Hscore : _calculate_match_score features (signature_of "Port Scan")
                     == 40 * (1 + 0.1 * 2)).
    { rewrite calculate_match_score_spec. unfold match_score_spec.
      rewrite Hcount. cbn [Nat.ltb Nat.leb]. rewrite Hraw. reflexivity. }
    pose proof (quiet_types_score_zero features Hquiet) as Hzero.
    repeat split; try assumption.
    apply (strict_maximum_is_best_match features _ _ Hps).
    intros n sig Hin Hne. rewrite (Hzero n sig Hin Hne), Hscore. reflexivity.
  - intros Hstrict. exact (strict_maximum_is_best_match features _ _ Hps Hstrict).
Qed.

Lemma port_scan_features_quiet : others_quiet port_scan_features.
Proof.
  intros n sig f l Hin He Hsyn Hports.
  table_cases Hin; table_cases He; try congruence; reflexivity.
Qed.

Lemma match_score_confidence_and_port_scan_witness :
  port_scan_features !! "syn_count" = Some 90 /\
  port_scan_features !! "unique_dst_ports" = Some 70 /\
  others_quiet port_scan_features /\
  raw_points port_scan_features (signature_of "Port Scan") == 40 /\
  matched_count port_scan_features (signature_of "Port Scan") = 2%nat /\
  _calculate_match_score port_scan_features (signature_of "Port Scan") == 40 * (1 + 0.1 * 2) /\
  best_match_of port_scan_features = Some "Port Scan".
Proof.
  split; [reflexivity|]. split; [reflexivity|].
  split; [exact port_scan_features_quiet|].
  destruct (match_score_confidence_and_port_scan port_scan_features)
    as (_ & _ & _ & _ & H & _).
  destruct (H eq_refl eq_refl port_scan_features_quiet) as (H1 & H2 & H3 & _ & H5).
  repeat split; assumption.
Defined.

(** The scenario, evaluated: Port Scan is the best match with score 48 and
    confidence 0.48; this is below the default threshold 0.6, so [classify]
    returns the label "Unknown Attack". *)
Example classify_port_scan_features :
  best_match_of port_scan_features = Some "Port Scan" /\
  best_score_of port_scan_features == 48 /\
  fst (fst (classify port_scan_features default_confidence_threshold))
  = Some "Unknown Attack" /\
  snd (fst (classify port_scan_features default_confidence_threshold)) == 0.48.
Proof. vm_compute. repeat split. Qed.

(** C3.  When the computed confidence is below the threshold, [classify]
    returns the label "Unknown Attack" with the computed confidence (and the
    score table); "Unknown Attack" is not an attack type of the signature
    table. *)
Theorem low_confidence_is_unknown_attack (features : gmap string Q) (threshold : Q) :
  confidence_of (best_score_of features) < threshold ->
  classify features threshold
  = (Some "Unknown Attack", confidence_of (best_score_of features),
     snd (best_of features))
  /\ ~ In "Unknown Attack" get_attack_types.
Proof.
  intros Hlow. split.
  - unfold classify, best_score_of in *.
    destruct (best_of features) as [[bm bs] det]. cbn [fst snd] in *.
    destruct (Qlt_le_dec (confidence_of bs) threshold) as [_|Hge]; [reflexivity|lra].
  - unfold get_attack_types. simpl. intros H.
    repeat (destruct H as [H|H]; [discriminate H|]). exact H.
Qed.

Lemma low_confidence_is_unknown_attack_witness :
  confidence_of (best_score_of port_scan_features) < default_confidence_threshold /\
  fst (fst (classify port_scan_features default_confidence_threshold))
  = Some "Unknown Attack".
Proof.
  assert (H : confidence_of (best_score_of port_scan_features)
              < default_confidence_threshold) by (vm_compute; reflexivity).
  split; [exact H|].
  destruct (low_confidence_is_unknown_attack port_scan_features
              default_confidence_threshold H) as [E _].
  rewrite E. reflexivity.
Defined.

End AttackClassifier.

(** ** The agent pipeline *)
Section Pipeline.

Import AnomalyDetection Agents.

Variable np_std : list Q -> Q.

(** The detections of precomputed scores, from index [k] on: exactly the
    samples whose score is strictly above the threshold, each tagged
    CRITICAL when its score is strictly above 0.9 and WARNING otherwise. *)
Lemma score_detections_spec (threshold : Q) (scores : list Q) :
  forall (k : nat) (d : Detection),
    In d (score_detections threshold k scores) <->
    exists i score,
      scores !! i = Some score /\ threshold < score /\
      d = ScoreDetection score (k + i)
                         (if Qlt_le_dec 0.9 score then CRITICAL else WARNING).
Proof.
  induction scores as [|s scores IH]; intros k d; cbn [score_detections].
  - split; [intros []|]. intros (i & score & H & _). destruct i; discriminate H.
  - rewrite in_app_iff, IH. split.
    + intros [Hhere|(i & score & Hi & Hlt & ->)].
      * destruct (Qlt_le_dec threshold s) as [Hlt|Hle]; [|destruct Hhere].
        destruct Hhere as [<-|[]]. exists O, s. rewrite Nat.add_0_r. auto.
      * exists (S i), score. rewrite Nat.add_succ_r. auto.
    + intros (i & score & Hi & Hlt & ->). destruct i as [|i].
      * injection Hi as ->. left. rewrite Nat.add_0_r.
        destruct (Qlt_le_dec threshold score) as [_|Hle]; [now left|lra].
      * right. exists i, score. rewrite Nat.add_succ_r. auto.
Qed.

(** The run of [process_data]: the message it returns and the state it
    leaves. *)
Lemma process_data_run (packets : list Packet) (events : list Event)
    (anomaly_scores : option (list Q)) (st : MultiAgentSystem) :
  let detections := detect np_std (anomaly_threshold st) packets anomaly_scores in
  let r := process_data np_std packets events anomaly_scores st in
  fst r = {| sender := "detect-agent"; recipient := "classify-agent";
             message_type := "anomalies_detected";
             content := AnomaliesDetected detections (length detections) (clock st);
             timestamp := S (clock st) |}
  /\ message_queue (snd r) = message_queue st
  /\ invocations (snd r) = (invocations st ++ [DETECTION])%list
  /\ anomaly_threshold (snd r) = anomaly_threshold st
  /\ clock (snd r) = S (S (clock st)).
Proof. cbn. repeat split. Qed.

Lemma collect_data_run (packets : list Packet) (events : list Event)
    (st : MultiAgentSystem) :
  let r := collect_data packets events st in
  sender (fst r) = "monitor-agent" /\ recipient (fst r) = "detect-agent"
  /\ message_type (fst r) = "raw_data"
  /\ message_queue (snd r) = message_queue st
  /\ invocations (snd r) = (invocations st ++ [MONITORING])%list
  /\ anomaly_threshold (snd r) = anomaly_threshold st
  /\ clock (snd r) = S (clock st).
Proof. cbn. repeat split. Qed.

Lemma sbind_run {A B : Type} (m : M A) (k : A -> M B) (st : MultiAgentSystem) :
  sbind m k st = k (fst (m st)) (snd (m st)).
Proof. unfold sbind. destruct (m st). reflexivity. Qed.

Lemma enqueue_run (msg : Message) (st : MultiAgentSystem) :
  message_queue (snd (enqueue msg st)) = (message_queue st ++ [msg])%list
  /\ invocations (snd (enqueue msg st)) = invocations st
  /\ anomaly_threshold (snd (enqueue msg st)) = anomaly_threshold st.
Proof. repeat split. Qed.

Lemma classify_attacks_run (detections : list Detection)
    (features : option (gmap string Q)) (st : MultiAgentSystem) :
  let r := classify_attacks detections features st in
  sender (fst r) = "classify-agent" /\ message_type (fst r) = "classifications_ready"
  /\ message_queue (snd r) = message_queue st
  /\ invocations (snd r) = (invocations st ++ [CLASSIFICATION])%list
  /\ anomaly_threshold (snd r) = anomaly_threshold st.
Proof. repeat split. Qed.

Lemma generate_explanations_run (classifications : list Classification)
    (st : MultiAgentSystem) :
  let r := generate_explanations classifications st in
  sender (fst r) = "explain-agent" /\ message_type (fst r) = "explanations_generated"
  /\ message_queue (snd r) = message_queue st
  /\ invocations (snd r) = (invocations st ++ [EXPLANATION])%list
  /\ anomaly_threshold (snd r) = anomaly_threshold st.
Proof. repeat split. Qed.

(** [respond_each] reads the clock once per explanation and touches
    nothing else. *)
Lemma respond_each_run (explanations : list Explanation) :
  forall st : MultiAgentSystem,
    let r := respond_each explanations st in
    message_queue (snd r) = message_queue st
    /\ invocations (snd r) = invocations st
    /\ anomaly_threshold (snd r) = anomaly_threshold st
    /\ length (fst (fst r)) = length explanations
    /\ length (snd (fst r)) = length explanations.
Proof.
  induction explanations as [|e explanations IH]; intros st; cbn zeta.
  - repeat split.
  - cbn [respond_each]. rewrite !sbind_run.
    match goal with
    | |- context [respond_each explanations ?s] =>
        specialize (IH s); cbn zeta in IH;
        destruct IH as (Hq & Hi & Ht & Ha & Hb);
        set (r := respond_each explanations s) in *
    end.
    cbn [ret fst snd length]. rewrite Hq, Hi, Ht, Ha, Hb. repeat split.
Qed.

Lemma generate_response_run (explanations : list Explanation) (st : MultiAgentSystem) :
  let r := generate_response explanations st in
  total_threats (fst r) = length explanations
  /\ message_queue (snd r) = message_queue st
  /\ invocations (snd r) = (invocations st ++ [RESPONSE])%list
  /\ anomaly_threshold (snd r) = anomaly_threshold st.
Proof.
  cbn zeta. unfold generate_response. rewrite !sbind_run.
  match goal with
  | |- context [respond_each explanations ?s] =>
      destruct (respond_each_run explanations s) as (Hq & Hi & Ht & _);
      set (r := respond_each explanations s) in *
  end.
  cbn [ret fst snd set_status now total_threats message_queue invocations
       anomaly_threshold].
  rewrite Hq, Hi, Ht. repeat split.
Qed.

(** The run of [process_threat], as far as the result, the queue, the
    entered agents and the threshold are concerned. *)
Lemma process_threat_run (packets : list Packet) (events : list Event)
    (anomaly_scores : option (list Q)) (features : option (gmap string Q))
    (st : MultiAgentSystem) :
  let detections := detect np_std (anomaly_threshold st) packets anomaly_scores in
  let r := process_threat np_std packets events anomaly_scores features st in
  anomaly_threshold (snd r) = anomaly_threshold st
  /\ (detections = [] ->
      fst r = {| status := "NORMAL"; threat_detected := false;
                 message := Some "No threats detected";
                 pipeline_messages := None; agents_involved := None;
                 response := None |}
      /\ invocations (snd r) = (invocations st ++ [MONITORING; DETECTION])%list
      /\ exists msg1 msg2,
           message_queue (snd r) = (message_queue st ++ [msg1; msg2])%list
           /\ sender msg1 = "monitor-agent" /\ message_type msg1 = "raw_data"
           /\ sender msg2 = "detect-agent"
           /\ message_type msg2 = "anomalies_detected"
           /\ get_detections (content msg2) = [])
  /\ (detections <> [] ->
      threat_detected (fst r) = true
      /\ status (fst r) = "THREATS_DETECTED"
      /\ pipeline_messages (fst r) = Some (length (message_queue st) + 4)%nat
      /\ invocations (snd r)
         = (invocations st
            ++ [MONITORING; DETECTION; CLASSIFICATION; EXPLANATION; RESPONSE])%list
      /\ exists msg1 msg2 msg3 msg4,
           message_queue (snd r) = (message_queue st ++ [msg1; msg2; msg3; msg4])%list).
Proof.
  cbn zeta. unfold process_threat. rewrite !sbind_run.
  destruct (collect_data_run packets events st) as (Hs1 & _ & Hm1 & Hq1 & Hi1 & Ht1 & _).
  set (r1 := collect_data packets events st) in *.
  destruct (enqueue_run (fst r1) (snd r1)) as (Hq1' & Hi1' & Ht1').
  set (st1 := snd (enqueue (fst r1) (snd r1))) in *.
  destruct (process_data_run packets events anomaly_scores st1)
    as (Hmsg2 & Hq2 & Hi2 & Ht2 & _).
  set (r2 := process_data np_std packets events anomaly_scores st1) in *.
  destruct (enqueue_run (fst r2) (snd r2)) as (Hq2' & Hi2' & Ht2').
  set (st2 := snd (enqueue (fst r2) (snd r2))) in *.
  assert (Hth : anomaly_threshold st1 = anomaly_threshold st) by congruence.
  rewrite Hth in Hmsg2.
  assert (Hdet : get_detections (content (fst r2))
                 = detect np_std (anomaly_threshold st) packets anomaly_scores)
    by (rewrite Hmsg2; reflexivity).
  assert (Hq : message_queue st2 = (message_queue st ++ [fst r1; fst r2])%list).
  { rewrite Hq2', Hq2, Hq1', Hq1, <- app_assoc. reflexivity. }
  assert (Hi : invocations st2 = (invocations st ++ [MONITORING; DETECTION])%list).
  { rewrite Hi2', Hi2, Hi1', Hi1, <- app_assoc. reflexivity. }
  assert (Ht : anomaly_threshold st2 = anomaly_threshold st) by congruence.
  rewrite Hdet.
  destruct (detect np_std (anomaly_threshold st) packets anomaly_scores)
    as [|d detections] eqn:Hd.
  - cbn [ret fst snd]. split; [exact Ht|]. split; [|congruence]. intros _.
    split; [reflexivity|]. split; [exact Hi|].
    exists (fst r1), (fst r2). rewrite Hmsg2 at 2 3 4. repeat split; assumption.
  - rewrite !sbind_run.
    destruct (classify_attacks_run (d :: detections) features st2)
      as (_ & _ & Hq3 & Hi3 & Ht3).
    set (r3 := classify_attacks (d :: detections) features st2) in *.
    destruct (enqueue_run (fst r3) (snd r3)) as (Hq3' & Hi3' & Ht3').
    set (st3 := snd (enqueue (fst r3) (snd r3))) in *.
    destruct (generate_explanations_run (get_classifications (content (fst r3))) st3)
      as (_ & _ & Hq4 & Hi4 & Ht4).
    set (r4 := generate_explanations (get_classifications (content (fst r3))) st3) in *.
    destruct (enqueue_run (fst r4) (snd r4)) as (Hq4' & Hi4' & Ht4').
    set (st4 := snd (enqueue (fst r4) (snd r4))) in *.
    destruct (generate_response_run (get_explanations (content (fst r4))) st4)
      as (_ & Hq5 & Hi5 & Ht5).
    set (r5 := generate_response (get_explanations (content (fst r4))) st4) in *.
    cbn [ret fst snd get_queue_length threat_detected status pipeline_messages].
    assert (Hq' : message_queue (snd r5)
                  = (message_queue st ++ [fst r1; fst r2; fst r3; fst r4])%list).
    { rewrite Hq5, Hq4', Hq4, Hq3', Hq3, Hq, <- !app_assoc. reflexivity. }
    split; [congruence|]. split; [congruence|]. intros _.
    split; [reflexivity|]. split; [reflexivity|]. split.
    { rewrite Hq', length_app. reflexivity. }
    split.
    { rewrite Hi5, Hi4', Hi4, Hi3', Hi3, Hi, <- !app_assoc. reflexivity. }
    exists (fst r1), (fst r2), (fst r3), (fst r4). exact Hq'.
Qed.

(** C5.  When the detection stage finds nothing, [process_threat] returns
    the result with status "NORMAL" and [threat_detected = False] (and no
    [response]); only the monitoring and the detection agent have been
    entered, and the queue has grown by exactly their two messages. *)
Theorem process_threat_short_circuits (packets : list Packet) (events : list Event)
    (anomaly_scores : option (list Q)) (features : option (gmap string Q))
    (st : MultiAgentSystem) :
  detect np_std (anomaly_threshold st) packets anomaly_scores = [] ->
  let r := process_threat np_std packets events anomaly_scores features st in
  status (fst r) = "NORMAL"
  /\ threat_detected (fst r) = false
  /\ message (fst r) = Some "No threats detected"
  /\ response (fst r) = None
  /\ invocations (snd r) = (invocations st ++ [MONITORING; DETECTION])%list
  /\ exists msg1 msg2,
       message_queue (snd r) = (message_queue st ++ [msg1; msg2])%list
       /\ sender msg1 = "monitor-agent" /\ message_type msg1 = "raw_data"
       /\ sender msg2 = "detect-agent" /\ message_type msg2 = "anomalies_detected"
       /\ get_detections (content msg2) = [].
Proof.
  intros Hnone. cbn zeta.
  destruct (process_threat_run packets events anomaly_scores features st)
    as (_ & Hempty & _).
  destruct (Hempty Hnone) as (Hr & Hi & Hmsgs). rewrite Hr.
  repeat split; assumption.
Qed.

(** C8, amended.  The messages of a run stay in [message_queue]: after
    [process_threat] the queue is the queue from before followed by the
    messages of this run, two for a run without detections and four for a
    run with detections; the [pipeline_messages] of a run with detections is
    the length of the whole queue, that is the length from before the run
    plus four. *)
Theorem process_threat_retains_messages (packets : list Packet) (events : list Event)
    (anomaly_scores : option (list Q)) (features : option (gmap string Q))
    (st : MultiAgentSystem) :
  let r := process_threat np_std packets events anomaly_scores features st in
  (exists new, message_queue (snd r) = (message_queue st ++ new)%list /\
               (length new = 2 \/ length new = 4)%nat)
  /\ (threat_detected (fst r) = false ->
      pipeline_messages (fst r) = None /\
      length (message_queue (snd r)) = (length (message_queue st) + 2)%nat)
  /\ (threat_detected (fst r) = true ->
      pipeline_messages (fst r) = Some (length (message_queue st) + 4)%nat /\
      length (message_queue (snd r)) = (length (message_queue st) + 4)%nat).
Proof.
  cbn zeta.
  destruct (process_threat_run packets events anomaly_scores features st)
    as (_ & Hempty & Hthreat).
  destruct (detect np_std (anomaly_threshold st) packets anomaly_scores) as [|d ds].
  - destruct (Hempty eq_refl) as (Hr & _ & m1 & m2 & Hq & _). clear Hthreat.
    rewrite Hr, Hq. split; [exists [m1; m2]; auto|].
    split; [intros _|discriminate]. rewrite length_app. auto.
  - destruct Hthreat as (Htd & _ & Hpm & _ & m1 & m2 & m3 & m4 & Hq); [discriminate|].
    rewrite Htd, Hpm, Hq. split; [exists [m1; m2; m3; m4]; auto|].
    split; [discriminate|intros _]. rewrite length_app. auto.
Qed.

(** C10.  With the threshold 0.7 that [DetectionAgent.__init__] sets, the
    detections that [process_data] emits for precomputed scores are exactly
    the samples with a score strictly above 0.7, each tagged CRITICAL when
    its score is strictly above 0.9 and WARNING otherwise.  A score equal to
    0.7 yields no detection and a score equal to 0.9 is tagged WARNING,
    whereas [classify_anomaly] with the thresholds 0.9 and 0.7 calls 0.7
    WARNING and 0.9 CRITICAL. *)
Theorem detection_thresholds_are_strict (packets : list Packet) (events : list Event)
    (scores : list Q) (st : MultiAgentSystem) :
  anomaly_threshold st = 0.7 ->
  let detections :=
    get_detections (content (fst (process_data np_std packets events (Some scores) st))) in
  (forall d, In d detections <->
     exists i score,
       scores !! i = Some score /\ 0.7 < score /\
       d = ScoreDetection score i (if Qlt_le_dec 0.9 score then CRITICAL else WARNING))
  /\ (forall i score severity,
        scores !! i = Some score -> score == 0.7 ->
        ~ In (ScoreDetection score i severity) detections)
  /\ (forall i score severity,
        scores !! i = Some score -> score == 0.9 ->
        In (ScoreDetection score i severity) detections -> severity = WARNING)
  /\ fst (classify_anomaly 0.7 0.9 0.7) = WARNING
  /\ fst (classify_anomaly 0.9 0.9 0.7) = CRITICAL.
Proof.
  intros Hthr. cbn zeta.
  destruct (process_data_run packets events (Some scores) st) as (Hmsg & _).
  rewrite Hmsg. cbn [content get_detections detect]. rewrite Hthr.
  assert (Hspec : forall d, In d (score_detections 0.7 0 scores) <->
            exists i score,
              scores !! i = Some score /\ 0.7 < score /\
              d = ScoreDetection score i
                    (if Qlt_le_dec 0.9 score then CRITICAL else WARNING)).
  { intros d. rewrite score_detections_spec. reflexivity. }
  split; [exact Hspec|]. split; [|split; [|split; reflexivity]].
  - intros i score severity Hi Heq Hin.
    apply Hspec in Hin as (i' & score' & _ & Hlt & [= -> _ _]). lra.
  - intros i score severity Hi Heq Hin.
    apply Hspec in Hin as (i' & score' & _ & Hlt & [= -> _ ->]).
    destruct (Qlt_le_dec 0.9 score'); [lra|reflexivity].
Qed.

(** The threshold is the one [__init__] sets, and no run changes it. *)
Lemma anomaly_threshold_fixed (packets : list Packet) (events : list Event)
    (anomaly_scores : option (list Q)) (features : option (gmap string Q))
    (st : MultiAgentSystem) (t0 : nat) :
  anomaly_threshold (Agents.__init__ t0) = 0.7
  /\ anomaly_threshold
       (snd (process_threat np_std packets events anomaly_scores features st))
     = anomaly_threshold st.
Proof.
  split; [reflexivity|].
  exact (proj1 (process_threat_run packets events anomaly_scores features st)).
Qed.

End Pipeline.

Section PipelineExamples.

Import AnomalyDetection Agents.

Lemma process_threat_short_circuits_witness :
  detect constant_std (anomaly_threshold (Agents.__init__ 0)) [] (Some [0.5; 0.7]) = [] /\
  threat_detected
    (fst (process_threat constant_std [] [] (Some [0.5; 0.7]) None (Agents.__init__ 0)))
  = false /\
  invocations
    (snd (process_threat constant_std [] [] (Some [0.5; 0.7]) None (Agents.__init__ 0)))
  = [MONITORING; DETECTION].
Proof.
  split; [reflexivity|].
  destruct (process_threat_short_circuits constant_std [] [] (Some [0.5; 0.7]) None
              (Agents.__init__ 0) eq_refl) as (_ & Htd & _ & _ & Hinv & _).
  split; [exact Htd|exact Hinv].
Defined.

(** C8, as stated, fails: on a fresh system two runs on the same threat
    report 4 and then 8 [pipeline_messages]; the four messages of the first
    run are still in the queue when the second run starts. *)
Lemma pipeline_messages_accumulate :
  pipeline_messages
    (fst (process_threat constant_std [] [] (Some [0.95]) None (Agents.__init__ 0)))
  = Some 4%nat
  /\ length (message_queue
       (snd (process_threat constant_std [] [] (Some [0.95]) None (Agents.__init__ 0))))
     = 4%nat
  /\ pipeline_messages
       (fst (process_threat constant_std [] [] (Some [0.95]) None
               (snd (process_threat constant_std [] [] (Some [0.95]) None
                       (Agents.__init__ 0)))))
     = Some 8%nat.
Proof. vm_compute. repeat split. Qed.

Lemma process_threat_retains_messages_witness :
  threat_detected
    (fst (process_threat constant_std [] [] (Some [0.95]) None (Agents.__init__ 0)))
  = true /\
  pipeline_messages
    (fst (process_threat constant_std [] [] (Some [0.95]) None (Agents.__init__ 0)))
  = Some (length (message_queue (Agents.__init__ 0)) + 4)%nat.
Proof.
  assert (H : threat_detected
                (fst (process_threat constant_std [] [] (Some [0.95]) None
                        (Agents.__init__ 0))) = true) by reflexivity.
  split; [exact H|].
  destruct (process_threat_retains_messages constant_std [] [] (Some [0.95]) None
              (Agents.__init__ 0)) as (_ & _ & Hthreat).
  exact (proj1 (Hthreat H)).
Defined.

Lemma detection_thresholds_are_strict_witness :
  anomaly_threshold (Agents.__init__ 0) = 0.7 /\
  ~ In (ScoreDetection 0.7 0 WARNING)
       (get_detections
          (content (fst (process_data constant_std [] [] (Some [0.7; 0.9; 0.95])
                                      (Agents.__init__ 0))))).
Proof.
  split; [reflexivity|].
  destruct (detection_thresholds_are_strict constant_std [] [] [0.7; 0.9; 0.95]
              (Agents.__init__ 0) eq_refl) as (_ & Hedge & _).
  apply (Hedge O 0.7 WARNING); reflexivity.
Defined.

(** The scores 0.7, 0.9 and 0.95: nothing for 0.7, WARNING for 0.9,
    CRITICAL for 0.95. *)
Example process_data_boundaries :
  get_detections
    (content (fst (process_data constant_std [] [] (Some [0.7; 0.9; 0.95])
                                (Agents.__init__ 0))))
  = [ScoreDetection 0.9 1 WARNING; ScoreDetection 0.95 2 CRITICAL].
Proof. reflexivity. Qed.

End PipelineExamples.

(* ================================================================== *)
(** * Further properties of the detectors *)
(* ================================================================== *)

Section TrainedDetectors.

Import AnomalyDetection.

Variable np_std : list Q -> Q.
Hypothesis np_std_nonneg : forall a, 0 <= np_std a.

(** X1.  [fit_statistical_baseline] on a batch with samples of [d > 0]
    features stores a baseline with one entry per feature and spreads that
    are not negative, and keeps the outlier model and the contamination
    ratio; on a batch without samples it leaves the detector as it was (the
    exception of [np.min] is caught). *)
Theorem fit_statistical_baseline_stores_baseline (self : AnomalyDetector)
    (X : list (list Q)) (d : nat) :
  X <> [] -> (0 < d)%nat -> batch_of_width d X ->
  (exists stats,
     baseline_stats (fit_statistical_baseline np_std self X) = Some stats
     /\ fitted d stats
     /\ mean stats = map np.mean (np.columns X)
     /\ median stats = map np.median (np.columns X))
  /\ isolation_forest (fit_statistical_baseline np_std self X) = isolation_forest self
  /\ contamination_ratio (fit_statistical_baseline np_std self X)
     = contamination_ratio self
  /\ fit_statistical_baseline np_std self [] = self.
Proof.
  intros Hne Hd HX.
  destruct (fit_statistical_baseline_fitted np_std np_std_nonneg self X d Hne Hd HX)
    as (stats & Hb & Hfit).
  unfold fit_statistical_baseline in *.
  destruct X as [|row X']; [congruence|].
  destruct (_median_absolute_deviation (row :: X')) as [deviations|e] eqn:E;
    cbn [baseline_stats isolation_forest contamination_ratio] in *.
  - injection Hb as <-. split; [|repeat split].
    eexists. repeat split; try reflexivity; apply Hfit.
  - exfalso. revert E.
    unfold _median_absolute_deviation.
    rewrite rows_aligned
      by (eapply Forall_impl; [exact HX|]; cbn beta; intros;
          rewrite length_map, (columns_length (row :: X') d); congruence).
    discriminate.
Qed.


End TrainedDetectors.

Section DetectorEdges.

Import AnomalyDetection.


Lemma fit_statistical_baseline_stores_baseline_witness :
  [[5]; [5]; [5]] <> [] /\ (0 < 1)%nat /\ batch_of_width 1 [[5]; [5]; [5]] /\
  exists stats,
    baseline_stats (fit_statistical_baseline (fun _ => 0) forest_detector
                                             [[5]; [5]; [5]]) = Some stats
    /\ fitted 1 stats.
Proof.
  assert (H1 : [[5]; [5]; [5]] <> ([] : list (list Q))) by discriminate.
  assert (H2 : (0 < 1)%nat) by lia.
  assert (H3 : batch_of_width 1 [[5]; [5]; [5]]) by (repeat constructor).
  repeat (split; [assumption|]).
  destruct (fit_statistical_baseline_stores_baseline (fun _ => 0)
              (fun _ => ltac:(discriminate)) forest_detector [[5]; [5]; [5]] 1
              H1 H2 H3) as ((stats & Hb & Hfit & _) & _).
  exists stats. split; assumption.
Defined.

Lemma broadcast_mismatch (op : Q -> Q -> Q) (a b : list Q) :
  length a <> length b -> length a <> 1%nat -> length b <> 1%nat ->
  np.broadcast op a b = Raises np.shape_mismatch.
Proof.
  intros Hab Ha Hb. unfold np.broadcast.
  apply Nat.eqb_neq in Hab. rewrite Hab.
  destruct a as [|x [|x' a]], b as [|y [|y' b]]; cbn [length] in *;
    try congruence; reflexivity.
Qed.

Lemma rows_mismatch (op : Q -> Q -> Q) (X : list (list Q)) (v : list Q) (w : nat) :
  X <> [] -> batch_of_width w X ->
  w <> length v -> w <> 1%nat -> length v <> 1%nat ->
  np.rows op X v = Raises np.shape_mismatch.
Proof.
  intros Hne HX Hw Hw1 Hv1. destruct X as [|row X]; [congruence|].
  apply Forall_cons in HX as [Hrow _].
  unfold np.rows. cbn [map sequence].
  rewrite broadcast_mismatch by congruence. reflexivity.
Qed.

(** X3.  A batch whose width is neither the width of the baseline nor 1
    (the baseline width not being 1 either) cannot be broadcast against the
    baseline; the exception is caught: both detectors return the empty
    array, and without an outlier model [ensemble_detection] returns the
    all-zero scores and no method scores. *)
Theorem wrong_width_batch_scores_zero (self : AnomalyDetector) (stats : Baseline)
    (X : list (list Q)) (w : nat) (weights : option (gmap string Q)) :
  baseline_stats self = Some stats -> isolation_forest self = None ->
  X <> [] -> batch_of_width w X ->
  w <> length (mean stats) -> w <> length (median stats) -> w <> 1%nat ->
  length (mean stats) <> 1%nat -> length (median stats) <> 1%nat ->
  detect_statistical self X = []
  /\ detect_mad self X = []
  /\ ensemble_detection self X weights = Returns (np.zeros (length X), []).
Proof.
  intros Hb Hf Hne HX Hmean Hmedian Hw1 Hmean1 Hmedian1.
  assert (Hs : detect_statistical self X = []).
  { unfold detect_statistical. rewrite Hb.
    rewrite (rows_mismatch Qminus X (mean stats) w) by assumption. reflexivity. }
  assert (Hm : detect_mad self X = []).
  { unfold detect_mad. rewrite Hb.
    rewrite (rows_mismatch Qminus X (median stats) w) by assumption. reflexivity. }
  split; [exact Hs|]. split; [exact Hm|].
  now apply ensemble_detection_no_output.
Qed.

Lemma wrong_width_batch_scores_zero_witness :
  batch_of_width 2 [[5; 6]; [7; 8]] /\
  detect_statistical three_feature_detector [[5; 6]; [7; 8]] = []
  /\ detect_mad three_feature_detector [[5; 6]; [7; 8]] = []
  /\ ensemble_detection three_feature_detector [[5; 6]; [7; 8]] None
     = Returns ([0; 0], []).
Proof.
  assert (HX : batch_of_width 2 [[5; 6]; [7; 8]]) by (repeat constructor).
  split; [exact HX|].
  refine (wrong_width_batch_scores_zero three_feature_detector _ [[5; 6]; [7; 8]] 2 None
            eq_refl eq_refl _ HX _ _ _ _ _); cbn; discriminate || lia.
Defined.

(** X4.  A detector that has never been trained scores every batch as
    all-zero, with no method scores; each of these scores is NORMAL for
    [classify_anomaly] with the default thresholds. *)
Theorem untrained_ensemble_is_all_zero (contamination : Q) (X : list (list Q))
    (weights : option (gmap string Q)) :
  ensemble_detection (AnomalyDetection.__init__ contamination) X weights
  = Returns (np.zeros (length X), [])
  /\ Forall (fun s => fst (classify_anomaly s default_critical_threshold
                                            default_warning_threshold) = NORMAL)
            (np.zeros (length X)).
Proof.
  split; [reflexivity|].
  unfold np.zeros. induction (length X); cbn [repeat]; constructor; auto.
Qed.





(** A sample one millionth above the training value is CRITICAL. *)
Example single_sample_one_millionth_is_critical :
  exists e methods,
    ensemble_detection constant_detector [[5 + (1 # 1000000)]] None
    = Returns ([e], methods)
    /\ fst (classify_anomaly e 0.9 0.7) = CRITICAL.
Proof. eexists. eexists. split; [vm_compute; reflexivity|]. reflexivity. Qed.

End DetectorEdges.

(* ================================================================== *)
(** * Further properties of the attack-type classifier *)
(* ================================================================== *)

Section ClassifierRange.

Import DeepLearning.

Lemma entry_points_matched (features : gmap string Q) (signature : string * string) :
  entry_points features signature
  = if entry_matched features signature then level_points (snd signature) else 0.
Proof.
  unfold entry_points, entry_matched, level_points.
  destruct (features !! fst signature); [|reflexivity].
  repeat match goal with
         | |- context [String.eqb ?a ?b] => destruct (String.eqb a b)
         | |- context [Qlt_le_dec ?a ?b] => destruct (Qlt_le_dec a b)
         end; reflexivity.
Qed.

Ltac table_entries H :=
  simpl in H;
  repeat (destruct H as [H|H]; [injection H as <- <-|]);
  try contradiction.

Ltac score_cases features :=
  rewrite calculate_match_score_spec;
  unfold match_score_spec, raw_points, matched_count, sumQ;
  cbn [map fold_right List.filter];
  rewrite !entry_points_matched;
  repeat match goal with
         | |- context [entry_matched features ?e] => destruct (entry_matched features e)
         end;
  cbn [length Nat.ltb Nat.leb snd];
  try (split; apply Qle_bool_iff; reflexivity);
  try (apply Qle_bool_iff; reflexivity).

(** The score of every attack type is between 0 and 78. *)
Lemma table_score_bounds (features : gmap string Q) (n : string)
    (sig : list (string * string)) :
  In (n, sig) attack_signatures ->
  0 <= _calculate_match_score features sig
  /\ _calculate_match_score features sig <= 78.
Proof. intros Hin. table_entries Hin; score_cases features. Qed.

(** Apart from Port Scan and DoS Attack, no attack type scores above 48. *)
Lemma two_entry_score_bound (features : gmap string Q) (n : string)
    (sig : list (string * string)) :
  In (n, sig) attack_signatures -> n <> "Port Scan" -> n <> "DoS Attack" ->
  _calculate_match_score features sig <= 48.
Proof.
  intros Hin Hps Hdos. table_entries Hin; try congruence; score_cases features.
Qed.

Lemma best_of_selected (features : gmap string Q) :
  (best_match_of features = None /\ best_score_of features = 0
   /\ forall n sig, In (n, sig) attack_signatures ->
                    _calculate_match_score features sig == 0)
  \/ (exists n sig, In (n, sig) attack_signatures
                    /\ best_match_of features = Some n
                    /\ best_score_of features = _calculate_match_score features sig
                    /\ 0 < best_score_of features).
Proof.
  destruct (classify_fold_spec features attack_signatures None 0 [])
    as (_ & Hall & Hsel). cbn zeta in Hall, Hsel.
  fold (best_of features) in Hall, Hsel.
  fold (best_match_of features) in Hsel. fold (best_score_of features) in Hall, Hsel.
  destruct Hsel as [[E1 E2]|(n & sig & Hin & E1 & E2 & Hpos)].
  - left. split; [exact E1|]. split; [exact E2|]. intros n sig Hin.
    pose proof (Hall n sig Hin) as Hle. rewrite E2 in Hle.
    pose proof (calculate_match_score_nonneg features sig). lra.
  - right. exists n, sig. auto.
Qed.

Lemma classify_label (features : gmap string Q) (threshold : Q) :
  fst (fst (classify features threshold))
  = if Qlt_le_dec (confidence_of (best_score_of features)) threshold
    then Some "Unknown Attack" else best_match_of features.
Proof.
  unfold classify, best_match_of, best_score_of.
  destruct (best_of features) as [[bm bs] det]. cbn [fst snd].
  destruct (Qlt_le_dec _ _); reflexivity.
Qed.

Lemma confidence_of_small (bs : Q) : bs <= 100 -> confidence_of bs == bs / 100.
Proof.
  intros H. unfold confidence_of. apply Q.min_r.
  apply Qle_shift_div_r; lra.
Qed.

(** X6.  With a threshold above 0.48, so with the default 0.6, [classify]
    can only return "Port Scan", "DoS Attack" or "Unknown Attack": the other
    six attack types have two 20-point entries and reach at most
    40 * 1.2 = 48 points, a confidence of 0.48. *)
Theorem classify_names_only_port_scan_or_dos (features : gmap string Q) (threshold : Q) :
  0.48 < threshold ->
  fst (fst (classify features threshold)) = Some "Unknown Attack"
  \/ fst (fst (classify features threshold)) = Some "Port Scan"
  \/ fst (fst (classify features threshold)) = Some "DoS Attack".
Proof.
  intros Hthr. rewrite classify_label.
  destruct (Qlt_le_dec _ _) as [_|Hconf]; [now left|]. right.
  destruct (best_of_selected features) as [(_ & E & _)|(n & sig & Hin & E1 & E2 & _)].
  - exfalso. rewrite E in Hconf. revert Hconf. apply Qlt_not_le.
    eapply Qle_lt_trans; [|exact Hthr]. apply Qle_bool_iff. reflexivity.
  - rewrite E1.
    destruct (string_dec n "Port Scan") as [->|Hps]; [now left|].
    destruct (string_dec n "DoS Attack") as [->|Hdos]; [now right|].
    exfalso. pose proof (two_entry_score_bound features n sig Hin Hps Hdos) as Hb.
    rewrite <- E2 in Hb. rewrite confidence_of_small in Hconf by lra.
    assert (best_score_of features / 100 <= 0.48)
      by (apply Qle_shift_div_r; lra).
    lra.
Qed.

Lemma classify_names_only_port_scan_or_dos_witness :
  0.48 < default_confidence_threshold /\
  (fst (fst (classify full_port_scan_features default_confidence_threshold))
   = Some "Unknown Attack"
   \/ fst (fst (classify full_port_scan_features default_confidence_threshold))
      = Some "Port Scan"
   \/ fst (fst (classify full_port_scan_features default_confidence_threshold))
      = Some "DoS Attack").
Proof.
  assert (H : 0.48 < default_confidence_threshold) by reflexivity.
  split; [exact H|].
  exact (classify_names_only_port_scan_or_dos full_port_scan_features
           default_confidence_threshold H).
Defined.

(** Both names are reached. *)
Example classify_full_port_scan :
  fst (fst (classify full_port_scan_features default_confidence_threshold))
  = Some "Port Scan"
  /\ snd (fst (classify full_port_scan_features default_confidence_threshold)) == 0.78.
Proof. vm_compute. split; reflexivity. Qed.

Example classify_flood :
  fst (fst (classify flood_features default_confidence_threshold)) = Some "DoS Attack"
  /\ snd (fst (classify flood_features default_confidence_threshold)) == 0.72.
Proof. vm_compute. split; reflexivity. Qed.

(** X7.  Whatever the features and the threshold, the confidence that
    [classify] returns is between 0 and 0.78 and equals [best_score / 100]:
    no score of the table exceeds 78, so the cap [min(1.0, ...)] never
    takes effect. *)
Theorem classify_confidence_range (features : gmap string Q) (threshold : Q) :
  0 <= snd (fst (classify features threshold))
  /\ snd (fst (classify features threshold)) <= 0.78
  /\ snd (fst (classify features threshold)) == best_score_of features / 100.
Proof.
  rewrite classify_confidence.
  assert (Hb : 0 <= best_score_of features /\ best_score_of features <= 78).
  { destruct (best_of_selected features) as [(_ & E & _)|(n & sig & Hin & _ & E & _)];
      rewrite E; [split; apply Qle_bool_iff; reflexivity|].
    apply (table_score_bounds features n sig Hin). }
  destruct Hb as [Hb0 Hb1].
  rewrite confidence_of_small by lra.
  split; [apply Qle_shift_div_l; lra|]. split; [apply Qle_shift_div_r; lra|reflexivity].
Qed.

(** X8.  [classify] returns Python's [None] as the attack type exactly when
    the threshold is not positive and no signature entry of the table
    matched (all scores are 0); with a positive threshold the attack type
    is always a string. *)
Theorem classify_none_label (features : gmap string Q) (threshold : Q) :
  (fst (fst (classify features threshold)) = None <->
   threshold <= 0 /\
   forall n sig, In (n, sig) attack_signatures ->
                 _calculate_match_score features sig == 0)
  /\ (0 < threshold -> exists label, fst (fst (classify features threshold)) = Some label).
Proof.
  rewrite classify_label.
  destruct (best_of_selected features)
    as [(E1 & E2 & Hzero)|(n & sig & Hin & E1 & E2 & Hpos)].
  - rewrite E1, E2.
    assert (Ec : confidence_of 0 == 0) by reflexivity.
    destruct (Qlt_le_dec (confidence_of 0) threshold) as [Hlt|Hge]; split.
    + split; [discriminate|]. intros [Hthr _]. lra.
    + eauto.
    + split; [intros _; split; [lra|exact Hzero]|reflexivity].
    + intros Hthr. lra.
  - rewrite E1. destruct (Qlt_le_dec _ _) as [Hlt|Hge]; split; eauto.
    + split; [discriminate|]. intros [_ Hzero].
      specialize (Hzero n sig Hin). rewrite <- E2 in Hzero. lra.
    + split; [discriminate|]. intros [_ Hzero].
      specialize (Hzero n sig Hin). rewrite <- E2 in Hzero. lra.
Qed.

Lemma classify_none_label_witness :
  0 < default_confidence_threshold /\
  exists label,
    fst (fst (classify port_scan_features default_confidence_threshold)) = Some label.
Proof.
  assert (H : 0 < default_confidence_threshold) by reflexivity.
  split; [exact H|].
  exact (proj2 (classify_none_label port_scan_features default_confidence_threshold) H).
Defined.

Example classify_empty_features_threshold_zero :
  classify ∅ 0 = (None, confidence_of 0,
                  map (fun e => (fst e, 0)) attack_signatures).
Proof. reflexivity. Qed.

Lemma classify_details_fold (features : gmap string Q)
    (table : list (string * list (string * string))) :
  forall acc,
    snd (fold_left (classify_step features) table acc)
    = (snd acc ++ map (fun e => (fst e, _calculate_match_score features (snd e))) table)%list.
Proof.
  induction table as [|[name sig] table IH]; intros [[bm bs] det]; cbn [fold_left map].
  - cbn [snd]. now rewrite app_nil_r.
  - rewrite IH. unfold classify_step.
    destruct (Qlt_le_dec bs _); cbn [snd fst]; now rewrite <- app_assoc.
Qed.

(** X9.  The [details] that [classify] returns hold one entry per attack
    type, in the order of the signature table, each with the match score of
    that type; they do not depend on the threshold, also when the label is
    "Unknown Attack". *)
Theorem classify_details (features : gmap string Q) (threshold : Q) :
  snd (classify features threshold)
  = map (fun e => (fst e, _calculate_match_score features (snd e))) attack_signatures
  /\ map fst (snd (classify features threshold)) = get_attack_types.
Proof.
  assert (E : snd (classify features threshold)
              = map (fun e => (fst e, _calculate_match_score features (snd e)))
                    attack_signatures).
  { unfold classify.
    pose proof (classify_details_fold features attack_signatures (None, 0, [])) as H.
    fold (best_of features) in H.
    destruct (best_of features) as [[bm bs] det]. cbn [snd app] in H.
    destruct (Qlt_le_dec _ _); cbn [snd]; exact H. }
  split; [exact E|]. rewrite E. unfold get_attack_types. now rewrite map_map.
Qed.

End ClassifierRange.

(* ================================================================== *)
(** * Further properties of the agent pipeline *)
(* ================================================================== *)

Section PipelineResponses.

Import AnomalyDetection Agents.

Variable np_std : list Q -> Q.

(** The number of packets of a protocol, a missing [protocol] key counting
    as "Unknown". *)
Lemma count_protocol_fold (p : string) (packets : list Packet) :
  forall hist : gmap string nat,
    default O (fold_left count_protocol packets hist !! p)
    = (default O (hist !! p)
       + length (List.filter (fun k => String.eqb (default "Unknown" (protocol k)) p)
                             packets))%nat.
Proof.
  induction packets as [|k packets IH]; intros hist; cbn [fold_left List.filter].
  - cbn [length]. lia.
  - rewrite IH. unfold count_protocol. cbn zeta.
    destruct (String.eqb (default "Unknown" (protocol k)) p) eqn:E.
    + apply String.eqb_eq in E. rewrite E, lookup_insert_eq.
      unfold default at 1. cbn [from_option length id]. lia.
    + apply String.eqb_neq in E. rewrite lookup_insert_ne by exact E. reflexivity.
Qed.

Lemma count_protocol_present (p : string) (packets : list Packet) :
  forall hist : gmap string nat,
    (forall q n, hist !! q = Some n -> (0 < n)%nat) ->
    forall n, fold_left count_protocol packets hist !! p = Some n -> (0 < n)%nat.
Proof.
  induction packets as [|k packets IH]; intros hist Hpos n; cbn [fold_left].
  - apply Hpos.
  - apply IH. intros q m. unfold count_protocol.
    destruct (decide (default "Unknown" (protocol k) = q)) as [->|Hne].
    + rewrite lookup_insert_eq. intros [= <-]. lia.
    + rewrite lookup_insert_ne by exact Hne. apply Hpos.
Qed.

(** X10.  The message of [collect_data] carries the batch unchanged and a
    summary whose protocol histogram is exact: a protocol is a key of the
    histogram exactly when a packet has it, its count is the number of
    those packets, and packets without a [protocol] key are counted under
    "Unknown". *)
Theorem collect_data_histogram (packets : list Packet) (events : list Event)
    (st : MultiAgentSystem) :
  exists summary,
    content (fst (collect_data packets events st)) = RawData packets events summary
    /\ packet_count summary = length packets
    /\ event_count summary = length events
    /\ forall p,
         let n := length (List.filter
                            (fun k => String.eqb (default "Unknown" (protocol k)) p)
                            packets) in
         protocols summary !! p = if Nat.eqb n 0 then None else Some n.
Proof.
  eexists. split; [reflexivity|]. cbn [packet_count event_count protocols].
  split; [reflexivity|]. split; [reflexivity|]. intros p. cbn zeta.
  pose proof (count_protocol_fold p packets ∅) as Hc.
  rewrite lookup_empty in Hc. cbn [default Nat.add] in Hc.
  destruct (fold_left count_protocol packets ∅ !! p) as [n|] eqn:E.
  - cbn [default] in Hc. rewrite <- Hc.
    assert (0 < n)%nat.
    { eapply (count_protocol_present p packets ∅); [|exact E].
      intros q m. rewrite lookup_empty. discriminate. }
    destruct n; [lia|reflexivity].
  - cbn [default] in Hc. rewrite <- Hc. reflexivity.
Qed.

Lemma respond_each_result (explanations : list Explanation) :
  forall st : MultiAgentSystem,
    snd (fst (respond_each explanations st)) = map alert_entry_of explanations
    /\ map (fun a => (a_severity a, a_alert_type a, a_confidence a,
                      a_recommended_actions a, a_automated_actions a))
           (fst (fst (respond_each explanations st)))
       = map (fun e => (e_severity e, e_attack_type e, e_confidence e,
                        e_recommendations e, _get_automated_actions (e_severity e)))
             explanations.
Proof.
  induction explanations as [|e explanations IH]; intros st.
  - split; reflexivity.
  - cbn [respond_each]. rewrite !sbind_run.
    match goal with
    | |- context [respond_each explanations ?s] =>
        destruct (IH s) as [Ha Hb]; set (r := respond_each explanations s) in *
    end.
    cbn [ret fst snd map]. rewrite Ha, Hb. split; reflexivity.
Qed.

Lemma generate_explanations_content (classifications : list Classification)
    (st : MultiAgentSystem) :
  get_explanations (content (fst (generate_explanations classifications st)))
  = map _generate_explanation classifications.
Proof. reflexivity. Qed.

(** The response of a run with detections, in terms of the detections. *)
Lemma process_threat_response (packets : list Packet) (events : list Event)
    (anomaly_scores : option (list Q)) (features : option (gmap string Q))
    (st : MultiAgentSystem) :
  let detections := detect np_std (anomaly_threshold st) packets anomaly_scores in
  let r := process_threat np_std packets events anomaly_scores features st in
  detections <> [] ->
  exists resp,
    response (fst r) = Some resp
    /\ agents_involved (fst r) = Some 5%nat
    /\ r_status resp = "READY_FOR_EXECUTION"
    /\ total_threats resp = length detections
    /\ alerts resp = map (fun d => alert_entry_of (explanation_of features d)) detections
    /\ map (fun a => (a_severity a, a_alert_type a, a_confidence a,
                      a_recommended_actions a, a_automated_actions a))
           (actions resp)
       = map (fun d => let e := explanation_of features d in
                       (e_severity e, e_attack_type e, e_confidence e,
                        e_recommendations e, _get_automated_actions (e_severity e)))
             detections.
Proof.
  cbn zeta. intros Hne. unfold process_threat. rewrite !sbind_run.
  destruct (collect_data_run packets events st) as (_ & _ & _ & _ & _ & Ht1 & _).
  set (r1 := collect_data packets events st) in *.
  destruct (enqueue_run (fst r1) (snd r1)) as (_ & _ & Ht1').
  set (st1 := snd (enqueue (fst r1) (snd r1))) in *.
  destruct (process_data_run np_std packets events anomaly_scores st1) as (Hmsg2 & _).
  set (r2 := process_data np_std packets events anomaly_scores st1) in *.
  set (st2 := snd (enqueue (fst r2) (snd r2))) in *.
  assert (Hth : anomaly_threshold st1 = anomaly_threshold st) by congruence.
  rewrite Hth in Hmsg2.
  assert (Hdet : get_detections (content (fst r2))
                 = detect np_std (anomaly_threshold st) packets anomaly_scores)
    by (rewrite Hmsg2; reflexivity).
  rewrite Hdet.
  destruct (detect np_std (anomaly_threshold st) packets anomaly_scores)
    as [|d detections]; [congruence|].
  rewrite !sbind_run.
  set (r3 := classify_attacks (d :: detections) features st2) in *.
  assert (H3 : get_classifications (content (fst r3))
               = map (classification_of features) (d :: detections)) by reflexivity.
  rewrite H3.
  set (st3 := snd (enqueue (fst r3) (snd r3))) in *.
  set (r4 := generate_explanations
               (map (classification_of features) (d :: detections)) st3) in *.
  assert (H4 : get_explanations (content (fst r4))
               = map (explanation_of features) (d :: detections)).
  { unfold r4. rewrite generate_explanations_content. now rewrite map_map. }
  rewrite H4.
  set (st4 := snd (enqueue (fst r4) (snd r4))) in *.
  unfold generate_response. rewrite !sbind_run.
  match goal with
  | |- context [respond_each ?es ?s] =>
      destruct (respond_each_result es s) as [Ha Hb];
      set (r5 := respond_each es s) in *
  end.
  cbn [ret fst snd get_queue_length response agents_involved].
  eexists. split; [reflexivity|].
  cbn [r_status total_threats alerts actions].
  split; [reflexivity|]. split; [reflexivity|].
  split; [now rewrite length_map|].
  split; [rewrite Ha; now rewrite map_map|].
  rewrite Hb. now rewrite map_map.
Qed.

(** The attack type and the severity that the classification and the
    explanation agent give a detection whose score is above 0.7. *)
Lemma explanation_of_bands (features : option (gmap string Q)) (d : Detection) :
  let score := anomaly_score_of d in
  0.7 < score ->
  e_attack_type (explanation_of features d)
  = (if Qlt_le_dec 0.95 score then "DoS Attack"
     else if Qlt_le_dec 0.8 score then "Port Scan" else "Anomalous Traffic")
  /\ e_severity (explanation_of features d)
     = (if Qlt_le_dec 0.9 score then "CRITICAL" else "WARNING")
  /\ e_confidence (explanation_of features d)
     == (if Qlt_le_dec 0.95 score then 1 else score).
Proof.
  cbn zeta. intros Hs.
  unfold explanation_of, classification_of, _generate_explanation, _classify_single.
  cbn [c_attack_type c_confidence e_attack_type e_severity e_confidence].
  destruct (Qlt_le_dec 0.95 (anomaly_score_of d)) as [H95|H95];
    cbn [at_type at_confidence].
  - assert (Hc : Qmin 1 (anomaly_score_of d * 1.1) == 1) by (apply Q.min_l; lra).
    split; [reflexivity|]. split; [|exact Hc].
    destruct (Qlt_le_dec 0.9 (Qmin 1 (anomaly_score_of d * 1.1))) as [_|H]; [|lra].
    destruct (Qlt_le_dec 0.9 (anomaly_score_of d)) as [_|H]; [reflexivity|lra].
  - destruct (Qlt_le_dec 0.8 (anomaly_score_of d)) as [H8|H8];
      cbn [at_type at_confidence].
    + split; [reflexivity|]. split; [|reflexivity].
      destruct (Qlt_le_dec 0.9 (anomaly_score_of d)); [reflexivity|].
      destruct (Qlt_le_dec 0.7 (anomaly_score_of d)) as [_|H]; [reflexivity|lra].
    + split; [reflexivity|]. split; [|reflexivity].
      destruct (Qlt_le_dec 0.9 (anomaly_score_of d)) as [H|_]; [lra|].
      destruct (Qlt_le_dec 0.7 (anomaly_score_of d)) as [_|H]; [reflexivity|lra].
Qed.

(** X11.  What the classification and the explanation agent make of one
    detection depends on its anomaly score only, never on the [features]
    argument.  For a score above 0.7 the attack type is "DoS Attack" above
    0.95, "Port Scan" above 0.8 and "Anomalous Traffic" otherwise; the
    severity is CRITICAL above 0.9 and WARNING otherwise, never INFO; a DoS
    attack is reported with confidence 1, the others with the score as
    confidence. *)
Theorem scored_detection_explanation (features : option (gmap string Q))
    (d : Detection) :
  let score := anomaly_score_of d in
  0.7 < score ->
  explanation_of features d = explanation_of None d
  /\ e_attack_type (explanation_of features d)
     = (if Qlt_le_dec 0.95 score then "DoS Attack"
        else if Qlt_le_dec 0.8 score then "Port Scan" else "Anomalous Traffic")
  /\ e_severity (explanation_of features d)
     = (if Qlt_le_dec 0.9 score then "CRITICAL" else "WARNING")
  /\ e_severity (explanation_of features d) <> "INFO"
  /\ e_confidence (explanation_of features d)
     == (if Qlt_le_dec 0.95 score then 1 else score).
Proof.
  cbn zeta. intros Hs.
  destruct (explanation_of_bands features d Hs) as (Ht & Hsev & Hc).
  split; [reflexivity|]. split; [exact Ht|]. split; [exact Hsev|].
  split; [|exact Hc].
  rewrite Hsev. destruct (Qlt_le_dec 0.9 (anomaly_score_of d)); discriminate.
Qed.

(** The scores of the detections of precomputed scores, in order. *)
Lemma score_detections_scores (threshold : Q) (scores : list Q) :
  forall k : nat,
    map anomaly_score_of (score_detections threshold k scores)
    = List.filter (fun score => negb (Qle_bool score threshold)) scores.
Proof.
  induction scores as [|s scores IH]; intros k; cbn [score_detections List.filter].
  - reflexivity.
  - rewrite map_app, IH.
    destruct (Qlt_le_dec threshold s) as [Hlt|Hle].
    + destruct (Qle_bool s threshold) eqn:E; [apply Qle_bool_iff in E; lra|].
      reflexivity.
    + apply Qle_bool_iff in Hle. rewrite Hle. reflexivity.
Qed.

Lemma score_detections_above (threshold : Q) (scores : list Q) :
  forall (k : nat) (d : Detection),
    In d (score_detections threshold k scores) -> threshold < anomaly_score_of d.
Proof.
  intros k d Hin. apply score_detections_spec in Hin as (i & score & _ & Hlt & ->).
  exact Hlt.
Qed.

(** X12.  A run of [process_threat] on precomputed scores, with a detection
    threshold of at least 0.7 and at least one score above it: the response
    is ready for execution, involves all five agents, counts one threat per
    score above the threshold, and lists for these scores, in order, one
    alert with the attack type of the score's band and the severity
    CRITICAL above 0.9 and WARNING otherwise, and one action of the same
    severity with the automated actions of that severity. *)
Theorem process_threat_alerts_of_scores (packets : list Packet) (events : list Event)
    (scores : list Q) (features : option (gmap string Q)) (st : MultiAgentSystem) :
  0.7 <= anomaly_threshold st ->
  (exists score, In score scores /\ anomaly_threshold st < score) ->
  let flagged :=
    List.filter (fun score => negb (Qle_bool score (anomaly_threshold st))) scores in
  let r := process_threat np_std packets events (Some scores) features st in
  exists resp,
    response (fst r) = Some resp
    /\ status (fst r) = "THREATS_DETECTED"
    /\ agents_involved (fst r) = Some 5%nat
    /\ r_status resp = "READY_FOR_EXECUTION"
    /\ total_threats resp = length flagged
    /\ map (fun al => (al_type al, al_severity al)) (alerts resp)
       = map (fun score =>
                (if Qlt_le_dec 0.95 score then "DoS Attack"
                 else if Qlt_le_dec 0.8 score then "Port Scan" else "Anomalous Traffic",
                 if Qlt_le_dec 0.9 score then "CRITICAL" else "WARNING"))
             flagged
    /\ map (fun a => (a_severity a, a_automated_actions a)) (actions resp)
       = map (fun score =>
                if Qlt_le_dec 0.9 score
                then ("CRITICAL", _get_automated_actions "CRITICAL")
                else ("WARNING", _get_automated_actions "WARNING"))
             flagged.
Proof.
  intros Hthr (score & Hin & Hlt). cbn zeta.
  assert (Hne : detect np_std (anomaly_threshold st) packets (Some scores) <> []).
  { cbn [detect]. intros Hnil.
    apply list_elem_of_In, list_elem_of_lookup in Hin as [i Hi].
    assert (Hd : In (ScoreDetection score i
                       (if Qlt_le_dec 0.9 score then CRITICAL else WARNING))
                    (score_detections (anomaly_threshold st) 0 scores)).
    { apply score_detections_spec. exists i, score.
      auto. }
    rewrite Hnil in Hd. destruct Hd. }
  destruct (process_threat_run np_std packets events (Some scores) features st)
    as (_ & _ & Hrun).
  destruct (Hrun Hne) as (_ & Hstatus & _).
  destruct (process_threat_response packets events (Some scores) features st Hne)
    as (resp & Hresp & Hinv & Hready & Htotal & Halerts & Hactions).
  exists resp. split; [exact Hresp|]. split; [exact Hstatus|].
  split; [exact Hinv|]. split; [exact Hready|].
  cbn [detect] in Htotal, Halerts, Hactions.
  rewrite <- (score_detections_scores (anomaly_threshold st) scores 0).
  split; [rewrite Htotal; now rewrite length_map|].
  assert (Hall : forall d, In d (score_detections (anomaly_threshold st) 0 scores) ->
                   0.7 < anomaly_score_of d).
  { intros d Hd. apply score_detections_above in Hd. lra. }
  rewrite !map_map. split.
  - rewrite Halerts, map_map. apply map_ext_in. intros d Hd.
    destruct (explanation_of_bands features d (Hall d Hd)) as (Ht & Hsev & _).
    cbn [alert_entry_of al_type al_severity]. now rewrite Ht, Hsev.
  - transitivity
      (map (fun x => (fst (fst (fst (fst x))), snd x))
           (map (fun a => (a_severity a, a_alert_type a, a_confidence a,
                           a_recommended_actions a, a_automated_actions a))
                (actions resp))).
    { rewrite map_map. reflexivity. }
    rewrite Hactions, map_map. apply map_ext_in. intros d Hd.
    destruct (explanation_of_bands features d (Hall d Hd)) as (_ & Hsev & _).
    cbn [fst snd]. rewrite Hsev.
    destruct (Qlt_le_dec 0.9 (anomaly_score_of d)); reflexivity.
Qed.

End PipelineResponses.

Section PipelineResponseExamples.

Import AnomalyDetection Agents.

Lemma scored_detection_explanation_witness :
  0.7 < anomaly_score_of (ScoreDetection 0.85 0 WARNING)
  /\ e_attack_type (explanation_of (Some ∅) (ScoreDetection 0.85 0 WARNING)) = "Port Scan"
  /\ e_severity (explanation_of (Some ∅) (ScoreDetection 0.85 0 WARNING)) = "WARNING".
Proof.
  assert (H : 0.7 < anomaly_score_of (ScoreDetection 0.85 0 WARNING)) by reflexivity.
  split; [exact H|].
  destruct (scored_detection_explanation (Some ∅) (ScoreDetection 0.85 0 WARNING) H)
    as (_ & Ht & Hs & _).
  split; [exact Ht|exact Hs].
Defined.

Lemma process_threat_alerts_of_scores_witness :
  0.7 <= anomaly_threshold (Agents.__init__ 0)
  /\ (exists score, In score [0.5; 0.85; 0.97]
                    /\ anomaly_threshold (Agents.__init__ 0) < score)
  /\ exists resp,
       response (fst (process_threat constant_std [] [] (Some [0.5; 0.85; 0.97]) None
                        (Agents.__init__ 0))) = Some resp
       /\ total_threats resp = 2%nat
       /\ map (fun al => (al_type al, al_severity al)) (alerts resp)
          = [("Port Scan", "WARNING"); ("DoS Attack", "CRITICAL")].
Proof.
  assert (H1 : 0.7 <= anomaly_threshold (Agents.__init__ 0))
    by (apply Qle_bool_iff; reflexivity).
  assert (H2 : exists score, In score [0.5; 0.85; 0.97]
                             /\ anomaly_threshold (Agents.__init__ 0) < score).
  { exists 0.85. split; [right; left; reflexivity|reflexivity]. }
  split; [exact H1|]. split; [exact H2|].
  destruct (process_threat_alerts_of_scores constant_std [] [] [0.5; 0.85; 0.97] None
              (Agents.__init__ 0) H1 H2)
    as (resp & Hresp & _ & _ & _ & Htotal & Halerts & _).
  exists resp. split; [exact Hresp|]. split; [exact Htotal|exact Halerts].
Defined.

End PipelineResponseExamples.

(* ================================================================== *)
(** * The packet-size branch of the detection agent *)
(* ================================================================== *)

Section PacketSizes.

Import AnomalyDetection Agents.










Variable np_std : list Q -> Q.

(** The detections of the packet-size branch: a packet of the batch, the
    reason, and a score above 0.6 and at most 1. *)
Lemma packet_detections_spec (packets : list Packet) (d : Detection) :
  In d (packet_detections np_std packets) ->
  exists score packet,
    d = PacketDetection score packet "Unusual packet size"
    /\ In packet packets /\ 0.6 < score /\ score <= 1.
Proof.
  unfold packet_detections. destruct packets as [|p0 ps]; [intros []|].
  cbn zeta. intros Hin. apply in_flat_map in Hin as (p & Hp & Hd).
  destruct (Qlt_le_dec 3 _) as [Hz|_] in Hd; [|destruct Hd].
  destruct Hd as [<-|[]]. eexists. exists p. split; [reflexivity|].
  split; [exact Hp|]. split.
  - apply Q.min_glb_lt; [reflexivity|]. apply Qlt_shift_div_l; [reflexivity|].
    eapply Qle_lt_trans; [|exact Hz]. apply Qle_bool_iff. reflexivity.
  - apply Q.le_min_l.
Qed.


(** X14.  A detection of the packet-size branch names a packet of the
    batch and the reason "Unusual packet size", and its score is above 0.6
    and at most 1 (a z-score above 3, divided by 5, capped at 1).  Its
    explanation has severity INFO exactly when the score is at most 0.7, in
    which case the attack type is "Anomalous Traffic": the packet-size
    branch, unlike precomputed scores, can raise an INFO alert. *)
Theorem packet_detection_explanation (packets : list Packet)
    (features : option (gmap string Q)) (d : Detection) :
  In d (packet_detections np_std packets) ->
  exists score packet,
    d = PacketDetection score packet "Unusual packet size"
    /\ In packet packets /\ 0.6 < score /\ score <= 1
    /\ (e_severity (explanation_of features d) = "INFO" <-> score <= 0.7)
    /\ (score <= 0.7 -> e_attack_type (explanation_of features d) = "Anomalous Traffic").
Proof.
  intros Hin.
  destruct (packet_detections_spec packets d Hin) as (score & p & -> & Hp & Hlo & Hhi).
  exists score, p. split; [reflexivity|]. split; [exact Hp|].
  split; [exact Hlo|]. split; [exact Hhi|].
  destruct (Qlt_le_dec 0.7 score) as [Hs|Hs].
  - destruct (explanation_of_bands features (PacketDetection score p "Unusual packet size") Hs)
      as (_ & Hsev & _).
    split; [|intros; lra]. rewrite Hsev. cbn [anomaly_score_of]. split; [|intros; lra].
    destruct (Qlt_le_dec 0.9 score); discriminate.
  - unfold explanation_of, classification_of, _generate_explanation, _classify_single.
    cbn [c_attack_type c_confidence e_attack_type e_severity anomaly_score_of].
    destruct (Qlt_le_dec 0.95 score) as [H|_]; [lra|].
    destruct (Qlt_le_dec 0.8 score) as [H|_]; [lra|].
    cbn [at_type at_confidence].
    destruct (Qlt_le_dec 0.9 score) as [H|_]; [lra|].
    destruct (Qlt_le_dec 0.7 score) as [H|_]; [lra|].
    split; [split; auto|reflexivity].
Qed.

End PacketSizes.

Section PacketSizeExamples.

Import AnomalyDetection Agents.


(** Sixteen packets of size 0 and one of size 17: the mean is 1 and the
    population standard deviation is 4, so the last packet has a z-score
    just below 4 and is the one detection. *)
Lemma packet_detection_explanation_witness :
  let packets := (repeat (mkPacket None (Some 0)) 16 ++ [mkPacket None (Some 17)])%list in
  exists d,
    In d (packet_detections (fun _ => 4) packets)
    /\ exists score packet,
         d = PacketDetection score packet "Unusual packet size"
         /\ 0.6 < score /\ score <= 1.
Proof.
  cbn zeta.
  pose (d := PacketDetection
               (Qmin 1 (Qabs ((17 - np.mean (repeat 0 16 ++ [17])%list) / (4 + np.eps)) / 5))
               (mkPacket None (Some 17)) "Unusual packet size").
  assert (Hin : In d (packet_detections (fun _ => 4)
                        (repeat (mkPacket None (Some 0)) 16 ++ [mkPacket None (Some 17)])%list)).
  { vm_compute. left. reflexivity. }
  exists d. split; [exact Hin|].
  destruct (packet_detection_explanation (fun _ => 4) _ None d Hin)
    as (score & packet & Hd & _ & Hlo & Hhi & _).
  exists score, packet. split; [exact Hd|]. split; [exact Hlo|exact Hhi].
Defined.

End PacketSizeExamples.

(* ================================================================== *)
(** * Agent statuses and the system status *)
(* ================================================================== *)

Section AgentStatuses.

Import AnomalyDetection Agents.

Variable np_std : list Q -> Q.

Lemma collect_data_status (packets : list Packet) (events : list Event)
    (st : MultiAgentSystem) (r : AgentRole) :
  agent_status (snd (collect_data packets events st)) r
  = if role_eqb MONITORING r then "idle" else agent_status st r.
Proof. destruct r; reflexivity. Qed.

Lemma process_data_status (packets : list Packet) (events : list Event)
    (anomaly_scores : option (list Q)) (st : MultiAgentSystem) (r : AgentRole) :
  agent_status (snd (process_data np_std packets events anomaly_scores st)) r
  = if role_eqb DETECTION r then "idle" else agent_status st r.
Proof. destruct r; reflexivity. Qed.

Lemma classify_attacks_status (detections : list Detection)
    (features : option (gmap string Q)) (st : MultiAgentSystem) (r : AgentRole) :
  agent_status (snd (classify_attacks detections features st)) r
  = if role_eqb CLASSIFICATION r then "idle" else agent_status st r.
Proof. destruct r; reflexivity. Qed.

Lemma generate_explanations_status (classifications : list Classification)
    (st : MultiAgentSystem) (r : AgentRole) :
  agent_status (snd (generate_explanations classifications st)) r
  = if role_eqb EXPLANATION r then "idle" else agent_status st r.
Proof. destruct r; reflexivity. Qed.

Lemma enqueue_status (msg : Message) (st : MultiAgentSystem) (r : AgentRole) :
  agent_status (snd (enqueue msg st)) r = agent_status st r.
Proof. reflexivity. Qed.

Lemma respond_each_status (explanations : list Explanation) :
  forall (st : MultiAgentSystem) (r : AgentRole),
    agent_status (snd (respond_each explanations st)) r = agent_status st r.
Proof.
  induction explanations as [|e explanations IH]; intros st r; [reflexivity|].
  cbn [respond_each]. rewrite !sbind_run.
  match goal with
  | |- context [respond_each explanations ?s] =>
      specialize (IH s r); set (b := respond_each explanations s) in *
  end.
  cbn [ret fst snd]. rewrite IH. reflexivity.
Qed.

Lemma generate_response_status (explanations : list Explanation)
    (st : MultiAgentSystem) (r : AgentRole) :
  agent_status (snd (generate_response explanations st)) r
  = if role_eqb RESPONSE r then "idle" else agent_status st r.
Proof.
  unfold generate_response. rewrite !sbind_run.
  match goal with
  | |- context [respond_each explanations ?s] =>
      pose proof (respond_each_status explanations s r) as H;
      set (b := respond_each explanations s) in *
  end.
  cbn [ret fst snd set_status now agent_status].
  rewrite H. destruct r; reflexivity.
Qed.

(** The statuses after a run: the agents that ran are idle, the others are
    as before. *)
Lemma process_threat_status (packets : list Packet) (events : list Event)
    (anomaly_scores : option (list Q)) (features : option (gmap string Q))
    (st : MultiAgentSystem) (r : AgentRole) :
  agent_status (snd (process_threat np_std packets events anomaly_scores features st)) r
  = match detect np_std (anomaly_threshold st) packets anomaly_scores with
    | [] => if role_eqb MONITORING r || role_eqb DETECTION r
            then "idle" else agent_status st r
    | _ :: _ => "idle"
    end.
Proof.
  unfold process_threat. rewrite !sbind_run.
  destruct (collect_data_run packets events st) as (_ & _ & _ & _ & _ & Ht1 & _).
  pose proof (collect_data_status packets events st r) as Hs1.
  set (r1 := collect_data packets events st) in *.
  destruct (enqueue_run (fst r1) (snd r1)) as (_ & _ & Ht1').
  pose proof (enqueue_status (fst r1) (snd r1) r) as Hs1'.
  set (st1 := snd (enqueue (fst r1) (snd r1))) in *.
  destruct (process_data_run np_std packets events anomaly_scores st1) as (Hmsg2 & _).
  pose proof (process_data_status packets events anomaly_scores st1 r) as Hs2.
  set (r2 := process_data np_std packets events anomaly_scores st1) in *.
  pose proof (enqueue_status (fst r2) (snd r2) r) as Hs2'.
  set (st2 := snd (enqueue (fst r2) (snd r2))) in *.
  assert (Hth : anomaly_threshold st1 = anomaly_threshold st) by congruence.
  rewrite Hth in Hmsg2.
  assert (Hdet : get_detections (content (fst r2))
                 = detect np_std (anomaly_threshold st) packets anomaly_scores)
    by (rewrite Hmsg2; reflexivity).
  rewrite Hdet.
  destruct (detect np_std (anomaly_threshold st) packets anomaly_scores)
    as [|d detections].
  - cbn [ret snd]. rewrite Hs2', Hs2, Hs1', Hs1. destruct r; reflexivity.
  - rewrite !sbind_run.
    pose proof (classify_attacks_status (d :: detections) features st2 r) as Hs3.
    set (r3 := classify_attacks (d :: detections) features st2) in *.
    pose proof (enqueue_status (fst r3) (snd r3) r) as Hs3'.
    set (st3 := snd (enqueue (fst r3) (snd r3))) in *.
    pose proof (generate_explanations_status
                  (get_classifications (content (fst r3))) st3 r) as Hs4.
    set (r4 := generate_explanations (get_classifications (content (fst r3))) st3) in *.
    pose proof (enqueue_status (fst r4) (snd r4) r) as Hs4'.
    set (st4 := snd (enqueue (fst r4) (snd r4))) in *.
    pose proof (generate_response_status
                  (get_explanations (content (fst r4))) st4 r) as Hs5.
    set (r5 := generate_response (get_explanations (content (fst r4))) st4) in *.
    cbn [ret snd get_queue_length].
    rewrite Hs5, Hs4', Hs4, Hs3', Hs3, Hs2', Hs2, Hs1', Hs1.
    destruct r; reflexivity.
Qed.

(** X15.  [get_system_status] after a run of [process_threat] reports
    OPERATIONAL, lists the five agents in order with their ids and roles,
    and counts as [messages_processed] every message queued so far: the
    count from before the run plus 4 when threats were detected and plus 2
    otherwise.  After a run with detections every agent is idle; after a
    run without, the agents that did not run keep the status they had, so
    all are idle if all were.  Reading the status changes neither the queue
    nor a status. *)
Theorem system_status_after_run (packets : list Packet) (events : list Event)
    (anomaly_scores : option (list Q)) (features : option (gmap string Q))
    (st : MultiAgentSystem) :
  let r := process_threat np_std packets events anomaly_scores features st in
  let s := get_system_status (snd r) in
  threat_detected (fst r) = true \/ (forall role, agent_status st role = "idle") ->
  system_status (fst s) = "OPERATIONAL"
  /\ messages_processed (fst s)
     = (length (message_queue st) + if threat_detected (fst r) then 4 else 2)%nat
  /\ ss_agents (fst s)
     = [("monitor-agent", "monitoring", "idle"); ("detect-agent", "detection", "idle");
        ("classify-agent", "classification", "idle");
        ("explain-agent", "explanation", "idle"); ("response-agent", "response", "idle")]
  /\ message_queue (snd s) = message_queue (snd r)
  /\ (forall role, agent_status (snd s) role = agent_status (snd r) role).
Proof.
  cbn zeta. intros Hidle.
  pose proof (process_threat_status packets events anomaly_scores features st) as Hst.
  destruct (process_threat_run np_std packets events anomaly_scores features st)
    as (_ & Hempty & Hthreat).
  set (r := process_threat np_std packets events anomaly_scores features st) in *.
  assert (Hq : length (message_queue (snd r))
               = (length (message_queue st)
                  + if threat_detected (fst r) then 4 else 2)%nat
               /\ forall role, agent_status (snd r) role = "idle").
  { destruct (detect np_std (anomaly_threshold st) packets anomaly_scores) as [|d ds].
    - destruct (Hempty eq_refl) as (Hr & _ & m1 & m2 & Hq & _).
      rewrite Hq, length_app, Hr. split; [reflexivity|]. intros role.
      rewrite Hst. destruct Hidle as [Ht|Hall].
      + rewrite Hr in Ht. discriminate Ht.
      + rewrite Hall. destruct (_ || _); reflexivity.
    - destruct Hthreat as (Htd & _ & _ & _ & m1 & m2 & m3 & m4 & Hq); [discriminate|].
      rewrite Hq, length_app, Htd. split; [reflexivity|]. intros role. apply Hst. }
  destruct Hq as [Hq Hall].
  unfold get_system_status. rewrite sbind_run.
  cbn [now fst snd system_status messages_processed ss_agents message_queue agent_status
       agents map agent_id role_value].
  rewrite !Hall. repeat split. exact Hq.
Qed.

End AgentStatuses.

Section AgentStatusExamples.

Import AnomalyDetection Agents.

Lemma system_status_after_run_witness :
  let r := process_threat constant_std [] [] (Some [0.5]) None (Agents.__init__ 0) in
  (forall role, agent_status (Agents.__init__ 0) role = "idle")
  /\ messages_processed (fst (get_system_status (snd r))) = 2%nat.
Proof.
  cbn zeta.
  assert (H : forall role, agent_status (Agents.__init__ 0) role = "idle")
    by (intros role; reflexivity).
  split; [exact H|].
  destruct (system_status_after_run constant_std [] [] (Some [0.5]) None
              (Agents.__init__ 0) (or_intror H)) as (_ & Hm & _).
  exact Hm.
Defined.

End AgentStatusExamples.

(* ================================================================== *)
(** * The time-series detector *)
(* ================================================================== *)

Section TimeSeries.

Import DeepLearning.LSTM.

Lemma reconstruction_error_aligned (mean std : list Q) (X : list (list Q)) (d : nat) :
  length mean = d -> length std = d -> AnomalyDetection.batch_of_width d X ->
  reconstruction_error mean std X = Returns (map (sample_error mean std) X).
Proof.
  intros Hm Hs HX. unfold reconstruction_error.
  rewrite rows_aligned
    by (eapply Forall_impl; [exact HX|]; cbn beta; intros; congruence).
  cbn [obind]. rewrite rows_aligned.
  2:{ apply Forall_map. eapply Forall_impl; [exact HX|]. cbn beta. intros row Hrow.
      rewrite length_zip_with. lia. }
  cbn [obind]. unfold np.mean_axis1, np.abs, sample_error. rewrite !map_map.
  reflexivity.
Qed.

Lemma ones_over_3 : np.ones_over 3 3 = [1 / 3; 1 / 3; 1 / 3].
Proof. reflexivity. Qed.

(** On at least three values the kernel is the shorter operand and the
    result starts one entry into the full convolution. *)
Lemma convolve_same_long (e : list Q) :
  (3 <= length e)%nat ->
  np.convolve_same e (np.ones_over 3 3)
  = Returns (map (fun i => np.convolve_at e (np.ones_over 3 3) (i + 1))
                 (seq 0 (length e))).
Proof.
  intros Hlen. rewrite ones_over_3. unfold np.convolve_same.
  destruct e as [|x e]; [cbn [length] in Hlen; lia|].
  assert (E : Nat.ltb (length (x :: e)) (length [1 / 3; 1 / 3; 1 / 3]) = false).
  { apply Nat.ltb_ge. exact Hlen. }
  rewrite E. reflexivity.
Qed.

(** The moving average of three, with zeros beyond both ends. *)
Lemma convolve_at_three (e : list Q) (i : nat) :
  np.convolve_at e (np.ones_over 3 3) (i + 1)
  == ((if (i =? 0)%nat then 0 else nth (i - 1) e 0) + nth i e 0 + nth (i + 1) e 0) / 3.
Proof.
  rewrite ones_over_3, Nat.add_1_r. unfold np.convolve_at.
  cbn [length seq map fold_right nth].
  destruct i as [|i].
  - cbn [Nat.leb Nat.sub Nat.eqb]. field.
  - cbn [Nat.leb Nat.sub Nat.eqb]. rewrite !Nat.sub_0_r. field.
Qed.

Lemma nth_map_in {A B : Type} (f : A -> B) (l : list A) (a : A) (b : B) :
  forall i, (i < length l)%nat -> nth i (map f l) b = f (nth i l a).
Proof.
  induction l as [|x l IH]; intros i Hi; cbn [length] in Hi; [lia|].
  destruct i as [|i]; cbn [map nth]; [reflexivity|]. apply IH. lia.
Qed.

Lemma predict_fitted (self : LSTMTimeSeriesDetector) (mean std : list Q)
    (X : list (list Q)) (d : nat) :
  fitted d self mean std -> AnomalyDetection.batch_of_width d X ->
  predict self X
  = try_except
      (let! smoothed := np.convolve_same (map (sample_error mean std) X)
                                         (np.ones_over 3 3) in
       Returns (smoothed, above (threshold self) smoothed))
      ([], []).
Proof.
  intros (Ht & Hm & Hs & Hlm & Hls) HX. unfold predict.
  rewrite Ht, Hm, Hs. cbn [negb].
  rewrite (reconstruction_error_aligned mean std X d Hlm Hls HX). reflexivity.
Qed.

(** X16.  [predict] on a trained detector and a batch of at least three
    samples of the detector's width returns one smoothed score and one
    prediction per sample: the score of a sample is the mean of its own
    reconstruction error and those of its two neighbours, a missing
    neighbour at either end counting as 0; the prediction is 1 exactly when
    the score is strictly above the threshold. *)
Theorem predict_smooths_over_neighbours (self : LSTMTimeSeriesDetector)
    (mean std : list Q) (X : list (list Q)) (d : nat) :
  fitted d self mean std -> AnomalyDetection.batch_of_width d X ->
  (3 <= length X)%nat ->
  let e := map (sample_error mean std) X in
  exists smoothed,
    predict self X = (smoothed, above (threshold self) smoothed)
    /\ length smoothed = length X
    /\ length (above (threshold self) smoothed) = length X
    /\ forall i, (i < length X)%nat ->
         nth i smoothed 0
         == ((if (i =? 0)%nat then 0 else nth (i - 1) e 0) + nth i e 0 + nth (i + 1) e 0) / 3
         /\ (nth i (above (threshold self) smoothed) 0%Z = 1%Z
             <-> threshold self < nth i smoothed 0).
Proof.
  intros Hfit HX Hlen. cbn zeta.
  rewrite (predict_fitted self mean std X d Hfit HX).
  rewrite convolve_same_long by (rewrite length_map; exact Hlen).
  cbn [obind try_except]. rewrite length_map.
  set (e := map (sample_error mean std) X).
  set (smoothed := map (fun i => np.convolve_at e (np.ones_over 3 3) (i + 1))
                       (seq 0 (length X))).
  assert (Hl : length smoothed = length X).
  { unfold smoothed. now rewrite length_map, length_seq. }
  exists smoothed. split; [reflexivity|]. split; [exact Hl|].
  split; [unfold above; now rewrite length_map|].
  intros i Hi.
  assert (Hnth : nth i smoothed 0 = np.convolve_at e (np.ones_over 3 3) (i + 1)).
  { unfold smoothed. rewrite (nth_map_in _ _ O) by (rewrite length_seq; exact Hi).
    rewrite seq_nth by exact Hi. reflexivity. }
  split.
  - rewrite Hnth. apply convolve_at_three.
  - unfold above. rewrite (nth_map_in _ _ 0) by (rewrite Hl; exact Hi).
    destruct (Qlt_le_dec (threshold self) (nth i smoothed 0)) as [H|H].
    + split; auto.
    + split; [discriminate|]. intros H'. lra.
Qed.

(** X17.  On a batch of one or two samples [predict] does not return one
    score per sample but three: the kernel of length three is then the
    longer operand of [np.convolve].  One sample with reconstruction error
    [e0] gives three times [e0 / 3]; two samples give [e0 / 3] and twice
    [(e0 + e1) / 3]. *)
Theorem predict_short_batch_three_scores (self : LSTMTimeSeriesDetector)
    (mean std : list Q) (X : list (list Q)) (d : nat) :
  fitted d self mean std -> AnomalyDetection.batch_of_width d X ->
  (1 <= length X <= 2)%nat ->
  exists s0 s1 s2,
    predict self X = ([s0; s1; s2], above (threshold self) [s0; s1; s2])
    /\ length (fst (predict self X)) <> length X
    /\ match map (sample_error mean std) X with
       | [e0] => s0 == e0 / 3 /\ s1 == e0 / 3 /\ s2 == e0 / 3
       | [e0; e1] => s0 == e0 / 3 /\ s1 == (e0 + e1) / 3 /\ s2 == (e0 + e1) / 3
       | _ => False
       end.
Proof.
  intros Hfit HX Hlen.
  rewrite (predict_fitted self mean std X d Hfit HX).
  destruct X as [|r0 [|r1 [|r2 X]]]; cbn [length] in Hlen; try lia.
  - cbn [map]. unfold np.convolve_same, np.ones_over, np.convolve_at.
    cbn [repeat map length Nat.ltb Nat.leb Nat.sub Nat.div Nat.divmod fst seq
         fold_right nth Nat.add obind try_except].
    eexists. eexists. eexists. split; [reflexivity|].
    split; [cbn [fst length]; lia|].
    repeat split; field.
  - cbn [map]. unfold np.convolve_same, np.ones_over, np.convolve_at.
    cbn [repeat map length Nat.ltb Nat.leb Nat.sub Nat.div Nat.divmod fst seq
         fold_right nth Nat.add obind try_except].
    eexists. eexists. eexists. split; [reflexivity|].
    split; [cbn [fst length]; lia|].
    repeat split; field.
Qed.

(** X18.  [predict] returns two empty arrays when the detector is not
    trained, when the batch has no samples ([np.convolve] refuses an empty
    operand), and when the batch width can be broadcast neither against the
    mean nor against the deviations; each exception is caught. *)
Theorem predict_without_scores (self : LSTMTimeSeriesDetector) (X : list (list Q)) :
  (trained self = false -> predict self X = ([], []))
  /\ predict self [] = ([], [])
  /\ (forall center spread w,
        mean self = Some center -> std self = Some spread ->
        X <> [] -> AnomalyDetection.batch_of_width w X ->
        w <> length center -> w <> 1%nat -> length center <> 1%nat ->
        predict self X = ([], [])).
Proof.
  split; [|split].
  - intros Ht. unfold predict. rewrite Ht. reflexivity.
  - unfold predict. destruct (trained self); [|reflexivity]. cbn [negb].
    destruct (mean self), (std self); reflexivity.
  - intros center spread w Hm Hs Hne HX Hw Hw1 Hm1. unfold predict.
    destruct (trained self); [|reflexivity]. cbn [negb]. rewrite Hm, Hs.
    unfold reconstruction_error.
    rewrite (rows_mismatch Qminus X center w Hne HX Hw Hw1 Hm1). reflexivity.
Qed.



Section Trained.

Variable np_std : list Q -> Q.
Hypothesis np_std_nonneg : forall a, 0 <= np_std a.


End Trained.

End TimeSeries.

Section TimeSeriesExamples.

Import DeepLearning.LSTM.

Lemma unit_detector_fitted : fitted 1 unit_detector [0] [1].
Proof. repeat split. Qed.

Lemma predict_smooths_over_neighbours_witness :
  (3 <= length [[3]; [0]; [0]; [6]])%nat
  /\ exists smoothed,
       predict unit_detector [[3]; [0]; [0]; [6]]
       = (smoothed, above (threshold unit_detector) smoothed)
       /\ length smoothed = 4%nat.
Proof.
  assert (H3 : (3 <= length [[3]; [0]; [0]; [6]])%nat) by (cbn [length]; lia).
  split; [exact H3|].
  destruct (predict_smooths_over_neighbours unit_detector [0] [1]
              [[3]; [0]; [0]; [6]] 1 unit_detector_fitted)
    as (smoothed & Hp & Hl & _); [repeat constructor|exact H3|].
  exists smoothed. split; [exact Hp|exact Hl].
Defined.

(** A lone sample with reconstruction error 3 is smoothed down to 1 and
    spreads to its neighbour; with the default threshold 0.7 both are
    flagged, and so is the sample before a trailing error of 6. *)
Example predict_spreads_to_neighbours :
  snd (predict unit_detector [[3]; [0]; [0]; [6]]) = [1; 1; 1; 1]%Z
  /\ snd (predict unit_detector [[2]; [0]; [0]; [0]]) = [0; 0; 0; 0]%Z.
Proof. split; vm_compute; reflexivity. Qed.

Lemma predict_short_batch_three_scores_witness :
  (1 <= length [[3]] <= 2)%nat
  /\ exists s0 s1 s2,
       predict unit_detector [[3]]
       = ([s0; s1; s2], above (threshold unit_detector) [s0; s1; s2])
       /\ s0 == 1 /\ s1 == 1 /\ s2 == 1.
Proof.
  assert (H : (1 <= length [[3]] <= 2)%nat) by (cbn [length]; lia).
  split; [exact H|].
  destruct (predict_short_batch_three_scores unit_detector [0] [1] [[3]] 1
              unit_detector_fitted)
    as (s0 & s1 & s2 & Hp & _ & Hs); [repeat constructor|exact H|].
  exists s0, s1, s2. split; [exact Hp|].
  assert (E : sample_error [0] [1] [3] / 3 == 1) by (vm_compute; reflexivity).
  cbn [map] in Hs. destruct Hs as (H0 & H1 & H2).
  rewrite H0, H1, H2. repeat split; exact E.
Defined.

Lemma predict_without_scores_witness :
  predict (DeepLearning.LSTM.__init__ 10 0.7) [[1]; [2]; [3]] = ([], [])
  /\ predict unit_detector [] = ([], []).
Proof.
  destruct (predict_without_scores (DeepLearning.LSTM.__init__ 10 0.7) [[1]; [2]; [3]])
    as (Hu & _).
  destruct (predict_without_scores unit_detector []) as (_ & He & _).
  split; [apply Hu; reflexivity|exact He].
Defined.


End TimeSeriesExamples.

(* ================================================================== *)
(** * The explainability engine *)
(* ================================================================== *)

Section Explanations.

Import DeepLearning.Explainability.

Lemma insert_descending_perm (x : string * Q) (l : list (string * Q)) :
  Permutation (insert_descending x l) (x :: l).
Proof.
  induction l as [|y l IH]; cbn [insert_descending]; [reflexivity|].
  destruct (Qlt_le_dec (snd x) (snd y)); [|reflexivity].
  rewrite IH. apply perm_swap.
Qed.

Lemma sorted_descending_perm (items : list (string * Q)) :
  Permutation (sorted_descending items) items.
Proof.
  unfold sorted_descending. induction items as [|x items IH]; cbn [fold_right].
  - reflexivity.
  - rewrite insert_descending_perm. now constructor.
Qed.

Lemma insert_descending_sorted (x : string * Q) (l : list (string * Q)) :
  StronglySorted (fun a b => snd b <= snd a) l ->
  StronglySorted (fun a b => snd b <= snd a) (insert_descending x l).
Proof.
  induction 1 as [|y l Hl IH Hy]; cbn [insert_descending].
  - repeat constructor.
  - destruct (Qlt_le_dec (snd x) (snd y)) as [Hlt|Hle].
    + constructor; [exact IH|].
      eapply Permutation_Forall; [symmetry; apply insert_descending_perm|].
      constructor; [lra|exact Hy].
    + constructor; [constructor; assumption|].
      constructor; [exact Hle|].
      eapply Forall_impl; [exact Hy|]. cbn beta. intros z Hz. lra.
Qed.

Lemma sorted_descending_sorted (items : list (string * Q)) :
  StronglySorted (fun a b => snd b <= snd a) (sorted_descending items).
Proof.
  unfold sorted_descending. induction items as [|x items IH]; cbn [fold_right].
  - constructor.
  - now apply insert_descending_sorted.
Qed.

(** Inserting an entry leaves the entries of every value in their order,
    the new entry in front of those of its own value. *)
Lemma insert_descending_filter (v : Q) (x : string * Q) (l : list (string * Q)) :
  List.filter (fun e => Qeq_bool (snd e) v) (insert_descending x l)
  = List.filter (fun e => Qeq_bool (snd e) v) (x :: l).
Proof.
  induction l as [|y l IH]; cbn [insert_descending]; [reflexivity|].
  destruct (Qlt_le_dec (snd x) (snd y)) as [Hlt|Hle]; [|reflexivity].
  cbn [List.filter] in *. rewrite IH.
  destruct (Qeq_bool (snd x) v) eqn:Ex, (Qeq_bool (snd y) v) eqn:Ey; try reflexivity.
  apply Qeq_bool_iff in Ex, Ey. lra.
Qed.

Lemma sorted_descending_filter (v : Q) (items : list (string * Q)) :
  List.filter (fun e => Qeq_bool (snd e) v) (sorted_descending items)
  = List.filter (fun e => Qeq_bool (snd e) v) items.
Proof.
  unfold sorted_descending. induction items as [|x items IH]; cbn [fold_right].
  - reflexivity.
  - rewrite insert_descending_filter. cbn [List.filter]. now rewrite IH.
Qed.

Lemma normalized_range (features : list (string * FeatureValue)) :
  Forall (fun e => 0 <= snd e /\ snd e <= 100) (normalized features).
Proof.
  unfold normalized. induction features as [|[name value] features IH];
    cbn [flat_map]; [constructor|].
  destruct value as [v|]; cbn [snd fst app]; [|exact IH].
  constructor; [|exact IH]. cbn [snd]. split.
  - apply Q.min_glb; [lra|apply Q.le_max_l].
  - apply Q.le_min_l.
Qed.

(** X20.  [_get_top_indicators] returns the numeric features, and only
    them, each once, with its value clamped to the range from 0 to 100, by
    falling value; features of equal clamped value keep the order of the
    feature dict. *)
Theorem top_indicators_sorted_stable (features : list (string * FeatureValue)) :
  let top := _get_top_indicators features in
  Permutation top (normalized features)
  /\ map fst (normalized features)
     = map fst (List.filter (fun item => match snd item with Number _ => true | Other => false end)
                            features)
  /\ Forall (fun e => 0 <= snd e /\ snd e <= 100) top
  /\ StronglySorted (fun a b => snd b <= snd a) top
  /\ forall v, List.filter (fun e => Qeq_bool (snd e) v) top
               = List.filter (fun e => Qeq_bool (snd e) v) (normalized features).
Proof.
  cbn zeta. unfold _get_top_indicators.
  split; [apply sorted_descending_perm|]. split.
  { unfold normalized. induction features as [|[name value] features IH];
      cbn [flat_map List.filter]; [reflexivity|].
    destruct value; cbn [snd fst app map]; now rewrite IH. }
  split.
  { eapply Permutation_Forall; [symmetry; apply sorted_descending_perm|].
    apply normalized_range. }
  split; [apply sorted_descending_sorted|].
  intros v. apply sorted_descending_filter.
Qed.

End Explanations.
